(** * Git workflow automation for CodeCommit: a model of the script and its properties

    The development follows
    [domains/domain-01-sdlc-automation/01-source-code-management/examples/scripts/git-workflow-automation.py].

    The script is glue code around three outside parties: the [git]
    executable (through [subprocess.run]), the CodeCommit client of boto3
    and the file system.  Every method of [GitWorkflowAutomator] is
    translated into a computation of a small state-and-exception monad
    whose state is the chronological trace of the interactions with these
    parties; what the parties answer is given by an environment, which may
    look at the whole trace before it answers.  The definitions come first,
    the properties after them.

    (The other script of the repository, [scripts/epub-generator/converter.py],
    parses its arguments and prints two lines; nothing is stated about it.) *)

From Stdlib Require Import String Ascii List Bool ZArith Lia DecimalString.
Import ListNotations.
Open Scope list_scope.
Open Scope string_scope.

(** ** Python strings

    A Python [str] is modelled by a Rocq [string] whose characters are the
    code points 0..255.  In that range the functions below agree with
    CPython.  The status glyphs of the messages lie beyond the range; they
    appear in literals only, are written there in UTF-8 and are only ever
    printed. *)

Module Py.

Definition LF : ascii := "010"%char.
Definition TAB : ascii := "009"%char.
Definition CR : ascii := "013"%char.
Definition DQUOTE : ascii := "034"%char.
Definition nl : string := String LF "".

(** [str.isspace] on one character: U+0009..U+000D, U+001C..U+0020, U+0085
    and U+00A0 are the white-space code points below 256. *)
Definition isspace (c : ascii) : bool :=
  let n := nat_of_ascii c in
  (((9 <=? n) && (n <=? 13)) || ((28 <=? n) && (n <=? 32))
   || (n =? 133) || (n =? 160))%nat.

Definition isdigit (c : ascii) : bool :=
  let n := nat_of_ascii c in ((48 <=? n) && (n <=? 57))%nat.

Fixpoint lstrip (s : string) : string :=
  match s with
  | String c r => if isspace c then lstrip r else s
  | "" => ""
  end.

(** [rstrip] drops the trailing white space: a character is kept when it is
    not white space or when something is kept after it. *)
Fixpoint rstrip (s : string) : string :=
  match s with
  | String c r =>
      match rstrip r with
      | "" => if isspace c then "" else String c ""
      | r' => String c r'
      end
  | "" => ""
  end.

(** [s.strip()] *)
Definition strip (s : string) : string := rstrip (lstrip s).

(** [s.startswith(p)] *)
Definition startswith (p s : string) : bool := String.prefix p s.

(** [p in s] for strings *)
Fixpoint contains (p s : string) : bool :=
  String.prefix p s ||
  match s with
  | String _ r => contains p r
  | "" => false
  end.

(** [s.split(sep)] for a separator of one character: the fields between the
    separators, empty ones included, so the result is never empty. *)
Fixpoint split (sep : ascii) (s : string) : list string :=
  match s with
  | "" => [""]
  | String c r =>
      if Ascii.eqb c sep then "" :: split sep r
      else match split sep r with
           | f :: fs => String c f :: fs
           | [] => [String c ""]
           end
  end.

(** [s.split()]: the maximal runs of characters that are not white space.
    [fields_from w s] carries the run [w] being read, reversed. *)
Fixpoint rev_string (acc s : string) : string :=
  match s with
  | "" => acc
  | String c r => rev_string (String c acc) r
  end.

Fixpoint fields_from (w : string) (s : string) : list string :=
  match s with
  | "" => match w with "" => [] | _ => [rev_string "" w] end
  | String c r =>
      if isspace c
      then match w with
           | "" => fields_from "" r
           | _ => rev_string "" w :: fields_from "" r
           end
      else fields_from (String c w) r
  end.

Definition split_ws (s : string) : list string := fields_from "" s.

(** [s.replace(' +', '+')]: occurrences are replaced from the left and do
    not overlap. *)
Fixpoint replace_space_plus (s : string) : string :=
  match s with
  | String " " (String "+" r) => String "+" (replace_space_plus r)
  | String c r => String c (replace_space_plus r)
  | "" => ""
  end.

(** [s.upper()] on the letters a..z; it is applied to the two status
    literals only. *)
Definition upper_char (c : ascii) : ascii :=
  let n := nat_of_ascii c in
  if ((97 <=? n) && (n <=? 122))%nat then ascii_of_nat (n - 32) else c.

Fixpoint upper (s : string) : string :=
  match s with
  | String c r => String (upper_char c) (upper r)
  | "" => ""
  end.

(** [str(n)] and the [{n}] of an f-string, for an integer *)
Definition str_of_Z (z : Z) : string := NilZero.string_of_int (Z.to_int z).

Definition str_of_nat (n : nat) : string := str_of_Z (Z.of_nat n).

(** [int(s)] in base 10: white space around the literal is dropped, a sign
    may come first, and a single underscore may stand between two digits.
    [None] is [ValueError]. *)
Definition digit_val (c : ascii) : Z := Z.of_nat (nat_of_ascii c - 48).


(** [digits_from acc s] reads [s], which follows a digit. *)
Fixpoint digits_from (acc : Z) (s : string) : option Z :=
  match s with
  | "" => Some acc
  | String c r =>
      if isdigit c then digits_from (10 * acc + digit_val c) r
      else if Ascii.eqb c "_" then
        match r with
        | String d r' =>
            if isdigit d then digits_from (10 * acc + digit_val d) r' else None
        | "" => None
        end
      else None
  end.

Definition unsigned_int (s : string) : option Z :=
  match s with
  | String c r => if isdigit c then digits_from (digit_val c) r else None
  | "" => None
  end.

Definition int (s : string) : option Z :=
  match strip s with
  | String "+" r => unsigned_int r
  | String "-" r => option_map Z.opp (unsigned_int r)
  | t => unsigned_int t
  end.

(** [repr(s)]: the quote is the double one exactly when [s] holds a single
    quote and no double one; the quote and the backslash are escaped, tab,
    line feed and carriage return have their letter, and the other code
    points that are not printable (below U+0020, U+007F..U+00A0, U+00AD)
    are written [\xhh]. *)
Definition hex_digit (n : nat) : ascii :=
  if (n <? 10)%nat then ascii_of_nat (48 + n) else ascii_of_nat (87 + n).

Definition printable (c : ascii) : bool :=
  let n := nat_of_ascii c in
  ((32 <=? n) && negb ((127 <=? n) && (n <=? 160)) && negb (n =? 173))%nat.

Definition escape_char (quote c : ascii) : string :=
  if Ascii.eqb c quote || Ascii.eqb c "\" then String "\" (String c "")
  else if Ascii.eqb c TAB then "\t"
  else if Ascii.eqb c LF then "\n"
  else if Ascii.eqb c CR then "\r"
  else if printable c then String c ""
  else let n := nat_of_ascii c in
       String "\" (String "x" (String (hex_digit (n / 16))
                                      (String (hex_digit (n mod 16)) ""))).

Fixpoint escape (quote : ascii) (s : string) : string :=
  match s with
  | String c r => escape_char quote c ++ escape quote r
  | "" => ""
  end.

Definition has_char (c : ascii) (s : string) : bool :=
  existsb (Ascii.eqb c) (list_ascii_of_string s).

Definition repr (s : string) : string :=
  let quote : ascii :=
    if has_char "'" s && negb (has_char DQUOTE s) then DQUOTE else "'"%char in
  String quote (escape quote s ++ String quote "").

(** [repr] of a list of strings, which is also how an f-string shows it *)
Definition repr_list (l : list string) : string :=
  "[" ++ String.concat ", " (map repr l) ++ "]".

End Py.

(** ** Exceptions, the trace and the environment *)

(** The exceptions the script meets.  [CalledProcessError] is what
    [subprocess.run(..., check=True)] raises on a return code other than zero
    and [SystemExit] what [sys.exit] raises; [Failure msg] is any other
    instance of a subclass of [Exception], [msg] being its [str()].
    Interruption from the keyboard is not modelled. *)
Inductive exn : Type :=
| SystemExit (code : Z)
| CalledProcessError (returncode : Z) (cmd : list string) (stderr : string)
| Failure (msg : string).

(** [isinstance(e, Exception)]: [SystemExit] derives from [BaseException]
    only. *)
Definition is_Exception (e : exn) : bool :=
  match e with SystemExit _ => false | _ => true end.

Definition is_CalledProcessError (e : exn) : bool :=
  match e with CalledProcessError _ _ _ => true | _ => false end.

(** [str(e)].  (Python words a negative return code, death by a signal,
    differently; no [CalledProcessError] reaches a handler that formats
    it.) *)
Definition str_of_exn (e : exn) : string :=
  match e with
  | SystemExit code => Py.str_of_Z code
  | CalledProcessError rc cmd _ =>
      "Command '" ++ Py.repr_list cmd ++ "' returned non-zero exit status "
      ++ Py.str_of_Z rc ++ "."
  | Failure msg => msg
  end.

(** One interaction with the outside. *)
Inductive event : Type :=
| Git (argv : list string)
    (** [subprocess.run(['git'] + argv, capture_output=True, text=True)] *)
| Print (line : string)
    (** [print(line)] *)
| PrintHelp
    (** [parser.print_help()] *)
| Boto3Client (service : string)
    (** [boto3.client(service)] *)
| CreatePullRequest (title description : string) (repositoryName : option string)
    (sourceReference destinationReference : string)
    (** [codecommit.create_pull_request(title=, description=, targets=[{...}])] *)
| PathExists (path : string)
    (** [os.path.exists(path)] *)
| ReadFile (path : string)
| WriteFile (path content : string)
| Now
    (** [datetime.now()] *)
| Traceback (e : exn)
    (** the interpreter reporting an exception nobody caught *).

Definition trace := list event.

(** What a subprocess does: it runs to a return code, or it cannot be run
    at all ([OSError], for instance no [git] on the path). *)
Inductive completed : Type :=
| Completed (returncode : Z) (stdout stderr : string)
| NotRun (msg : string).

(** The environment answers every interaction, knowing the trace so far.
    An [inr msg] or [Some msg] answer is an exception [Failure msg]. *)
Record Env : Type := {
  run_git : trace -> list string -> completed;
  boto3_client : trace -> string -> option string;
  create_pull_request :
    trace -> string -> string -> option string -> string -> string -> string + string;
    (** [inl id]: the response, of which the script reads
        [response['pullRequest']['pullRequestId']] *)
  path_exists : trace -> string -> bool;
  read_file : trace -> string -> string + string;
  write_file : trace -> string -> string -> option string;
  json_set_version : string -> string -> string + string;
    (** [json.load] of the text, [data['version'] = version],
        [json.dump(data, indent=2)] *)
  days_since : trace -> string -> string + Z
    (** [(datetime.now() - datetime.fromisoformat(s).replace(tzinfo=None)).days] *)
}.

(** ** The monad *)

Inductive result (A : Type) : Type :=
| Return (a : A)
| Raise (e : exn).
Arguments Return {A} a.
Arguments Raise {A} e.

Definition M (A : Type) : Type := trace -> result A * trace.

Definition ret {A} (a : A) : M A := fun t => (Return a, t).

Definition raise {A} (e : exn) : M A := fun t => (Raise e, t).

Definition bind {A B} (m : M A) (f : A -> M B) : M B :=
  fun t =>
    match m t with
    | (Return a, t') => f a t'
    | (Raise e, t') => (Raise e, t')
    end.

(** [ask q ev] puts a question to the environment and records it. *)
Definition ask {A} (q : trace -> A) (ev : event) : M A :=
  fun t => (Return (q t), (t ++ [ev])%list).

Definition emit (ev : event) : M unit := fun t => (Return tt, (t ++ [ev])%list).

(** [try: m  except <class> as e: h e], the class being given by [catches] *)
Definition try_except {A} (m : M A) (catches : exn -> bool) (h : exn -> M A) : M A :=
  fun t =>
    match m t with
    | (Raise e, t') => if catches e then h e t' else (Raise e, t')
    | r => r
    end.

(** a bare [except:] *)
Definition anything (_ : exn) : bool := true.

(** [for x in l: body x] *)
Fixpoint for_each {A} (l : list A) (body : A -> M unit) : M unit :=
  match l with
  | [] => ret tt
  | x :: r => bind (body x) (fun _ => for_each r body)
  end.

Declare Scope py_scope.
Delimit Scope py_scope with py.
Notation "x <- m ;; k" := (bind m (fun x => k))
  (at level 61, m at next level, right associativity) : py_scope.
Notation "m ;; k" := (bind m (fun _ => k))
  (at level 61, right associativity) : py_scope.
Open Scope py_scope.

Definition print (line : string) : M unit := emit (Print line).

(** [sys.exit(code)] *)
Definition sys_exit {A} (code : Z) : M A := raise (SystemExit code).

(** ** The automator *)

(** The fields of a [GitWorkflowAutomator] that the methods read.  (The
    [codecommit] client made by the constructor has no content here: its one
    method is an interaction of the environment.) *)
Record automator : Type := {
  repository_name : option string;
  current_branch : string
}.

(** Python's truth value of a string and of an optional string *)
Definition truthy (s : string) : bool := negb (String.eqb s "").

Definition truthy_opt (o : option string) : bool :=
  match o with Some s => truthy s | None => false end.

(** The value of a metric of the health report. *)
Inductive metric : Type :=
| IntMetric (n : Z)
| FilesMetric (files : list (string * Z)).

(** The health report, a dict of four entries in the script; [metrics] is
    itself a dict, kept in the order of insertion. *)
Record health_report : Type := {
  status : string;
  issues : list string;
  recommendations : list string;
  metrics : list (string * metric)
}.

Definition set_status (s : string) (r : health_report) : health_report :=
  {| status := s; issues := issues r;
     recommendations := recommendations r; metrics := metrics r |}.

Definition add_issue (i : string) (r : health_report) : health_report :=
  {| status := status r; issues := (issues r ++ [i])%list;
     recommendations := recommendations r; metrics := metrics r |}.

Definition add_recommendation (c : string) (r : health_report) : health_report :=
  {| status := status r; issues := issues r;
     recommendations := (recommendations r ++ [c])%list; metrics := metrics r |}.

(** [d[k] = v] on an insertion-ordered dict *)
Fixpoint dict_set {V} (k : string) (v : V) (d : list (string * V)) : list (string * V) :=
  match d with
  | [] => [(k, v)]
  | (k', v') :: r => if String.eqb k' k then (k, v) :: r else (k', v') :: dict_set k v r
  end.

Definition set_metric (k : string) (v : metric) (r : health_report) : health_report :=
  {| status := status r; issues := issues r;
     recommendations := recommendations r; metrics := dict_set k v (metrics r) |}.

(** The parsed command line ([argparse.Namespace]). *)
Inductive command : Type :=
| NoCommand
| FeatureStart (name base : string)
| FeatureFinish (name target : string)
| FeatureNoAction
| Hotfix (name base : string)
| Release (version base : string)
| Cleanup (dry_run no_dry_run : bool)
| Health
| Sync (branch : option string).

Record args : Type := {
  repository : option string;
  cmd_of : command
}.

(** [re.match(r'^\d+\.\d+\.\d+$', version)].  A digit and the dot exclude
    each other, so the greedy runs of digits never have to give a character
    back; [$] holds at the end of the text and also just before a line feed
    that ends the text. *)
Fixpoint skip_digits (s : string) : string :=
  match s with
  | String c r => if Py.isdigit c then skip_digits r else s
  | "" => ""
  end.

(** [\d+] at the head of [s]: what follows it, if it matches *)
Definition digits1 (s : string) : option string :=
  match s with
  | String c r => if Py.isdigit c then Some (skip_digits r) else None
  | "" => None
  end.

(** [\.] at the head of [s] *)
Definition dot (s : string) : option string :=
  match s with
  | String "." r => Some r
  | _ => None
  end.

(** [$] at [s] *)
Definition at_dollar (s : string) : bool :=
  String.eqb s "" || String.eqb s Py.nl.

Definition opt_bind {A B} (o : option A) (f : A -> option B) : option B :=
  match o with Some a => f a | None => None end.

Definition version_re_match (version : string) : bool :=
  match opt_bind (opt_bind (opt_bind (opt_bind (digits1 version) dot) digits1) dot)
                 digits1 with
  | Some rest => at_dollar rest
  | None => false
  end.

Section Automator.

Variable env : Env.

(** [subprocess.run(['git'] + command, capture_output=True, text=True,
    check=True)]; of the result only [stdout] is read. *)
Definition subprocess_run_git (command : list string) : M string :=
  r <- ask (fun t => run_git env t command) (Git command);;
  match r with
  | Completed rc out err =>
      if (rc =? 0)%Z then ret out
      else raise (CalledProcessError rc ("git" :: command) err)
  | NotRun msg => raise (Failure msg)
  end.

Definition _get_current_branch : M string :=
  try_except
    (out <- subprocess_run_git ["rev-parse"; "--abbrev-ref"; "HEAD"];;
     ret (Py.strip out))
    is_CalledProcessError
    (fun _ => ret "main").

(** ([_run_aws_command], which follows it in the script, has no caller and
    is left out.) *)
Definition _run_git_command (command : list string) : M string :=
  try_except
    (subprocess_run_git command)
    is_CalledProcessError
    (fun e =>
       match e with
       | CalledProcessError _ cmd stderr =>
           print ("Git command failed: " ++ Py.repr_list cmd);;
           print ("Error: " ++ stderr);;
           sys_exit 1
       | _ => raise e
       end).

(** [__init__] *)
Definition GitWorkflowAutomator (repository_name : option string) : M automator :=
  c <- ask (fun t => boto3_client env t "codecommit") (Boto3Client "codecommit");;
  match c with
  | Some msg => raise (Failure msg)
  | None =>
      b <- _get_current_branch;;
      ret {| repository_name := repository_name; current_branch := b |}
  end.

Definition create_feature_branch (feature_name base_branch : string) : M unit :=
  print ("Creating feature branch: feature/" ++ feature_name);;
  _run_git_command ["checkout"; base_branch];;
  _run_git_command ["pull"; "origin"; base_branch];;
  let branch_name := "feature/" ++ feature_name in
  _run_git_command ["checkout"; "-b"; branch_name];;
  _run_git_command ["push"; "-u"; "origin"; branch_name];;
  print ("✅ Feature branch '" ++ branch_name ++ "' created and pushed to remote");;
  print "🚀 You can now start working on your feature!".

Definition create_hotfix_branch (hotfix_name base_branch : string) : M unit :=
  print ("Creating hotfix branch: hotfix/" ++ hotfix_name);;
  _run_git_command ["checkout"; base_branch];;
  _run_git_command ["pull"; "origin"; base_branch];;
  let branch_name := "hotfix/" ++ hotfix_name in
  _run_git_command ["checkout"; "-b"; branch_name];;
  _run_git_command ["push"; "-u"; "origin"; branch_name];;
  print ("🔥 Hotfix branch '" ++ branch_name ++ "' created and pushed to remote").

(** The description of the pull request: the template with the title in it,
    stripped. *)
Definition pull_request_description (title : string) : string :=
  Py.strip
    (String.concat Py.nl
       [ "";
         "## Description";
         title;
         "";
         "## Type of Change";
         "- [ ] Bug fix";
         "- [x] New feature";
         "- [ ] Breaking change";
         "- [ ] Documentation update";
         "";
         "## Testing";
         "- [ ] Unit tests pass";
         "- [ ] Integration tests pass";
         "- [ ] Manual testing completed";
         "";
         "## Checklist";
         "- [ ] Code follows project style guidelines";
         "- [ ] Self-review completed";
         "- [ ] Documentation updated";
         "- [ ] No sensitive data exposed";
         "                " ]).

Definition _create_pull_request (self : automator)
    (source_branch target_branch title : string) : M unit :=
  try_except
    (r <- ask
            (fun t =>
               create_pull_request env t
                 ("Feature: " ++ title)
                 (pull_request_description title)
                 (repository_name self)
                 ("refs/heads/" ++ source_branch)
                 ("refs/heads/" ++ target_branch))
            (CreatePullRequest
               ("Feature: " ++ title)
               (pull_request_description title)
               (repository_name self)
               ("refs/heads/" ++ source_branch)
               ("refs/heads/" ++ target_branch));;
     match r with
     | inl pull_request_id =>
         print "✅ Pull request created successfully!";;
         print ("🔗 Pull Request ID: " ++ pull_request_id)
     | inr msg => raise (Failure msg)
     end)
    is_Exception
    (fun e => print ("❌ Failed to create pull request: " ++ str_of_exn e)).

Definition finish_feature (self : automator) (feature_name target_branch : string)
  : M unit :=
  let branch_name := "feature/" ++ feature_name in
  print ("Finishing feature branch: " ++ branch_name);;
  _run_git_command ["checkout"; branch_name];;
  _run_git_command ["push"; "origin"; branch_name];;
  if truthy_opt (repository_name self)
  then _create_pull_request self branch_name target_branch feature_name
  else
    print "⚠️  Repository name not provided. Cannot create pull request automatically.";;
    print ("Please create a pull request manually from " ++ branch_name
           ++ " to " ++ target_branch).

(** The list that [clean_merged_branches] builds from the output of
    [git branch --merged main]. *)
Definition merged_branches_of (stdout : string) : list string :=
  map Py.strip
    (filter
       (fun branch =>
          truthy (Py.strip branch)
          && negb (Py.startswith "*" (Py.strip branch))
          && negb (Py.contains "main" branch))
       (Py.split Py.LF stdout)).

Definition clean_merged_branches (dry_run : bool) : M unit :=
  print "🧹 Cleaning up merged branches...";;
  stdout <- _run_git_command ["branch"; "--merged"; "main"];;
  let merged_branches := merged_branches_of stdout in
  match merged_branches with
  | [] => print "✅ No merged branches to clean up"
  | _ =>
      print ("Found " ++ Py.str_of_nat (length merged_branches) ++ " merged branches:");;
      for_each merged_branches (fun branch => print ("  - " ++ branch));;
      if dry_run
      then print "🔍 This is a dry run. Use --no-dry-run to actually delete branches."
      else
        for_each merged_branches (fun branch =>
          try_except
            (_run_git_command ["branch"; "-d"; branch];;
             print ("✅ Deleted local branch: " ++ branch))
            anything
            (fun _ => print ("⚠️  Could not delete local branch: " ++ branch)));;
        for_each merged_branches (fun branch =>
          try_except
            (_run_git_command ["push"; "origin"; "--delete"; branch];;
             print ("✅ Deleted remote branch: " ++ branch))
            anything
            (fun _ => print ("⚠️  Could not delete remote branch: " ++ branch)))
  end.

(** [l[i]], which raises [IndexError] past the end *)
Definition index (l : list string) (i : nat) : M string :=
  match nth_error l i with
  | Some x => ret x
  | None => raise (Failure "list index out of range")
  end.

(** [int(s)], which raises [ValueError] *)
Definition int_of (s : string) : M Z :=
  match Py.int s with
  | Some z => ret z
  | None => raise (Failure ("invalid literal for int() with base 10: " ++ Py.repr s))
  end.

(** The loop of the health check over the lines of [git ls-files -s];
    [large_files] is the list built so far. *)
Fixpoint scan_large_files (lines : list string) (large_files : list (string * Z))
  : M (list (string * Z)) :=
  match lines with
  | [] => ret large_files
  | line :: rest =>
      if truthy line then
        let parts := Py.split Py.TAB line in
        if (2 <=? length parts)%nat then
          field <- index (Py.split_ws (nth 0 parts "")) 3;;
          size <- int_of field;;
          let filename := nth 1 parts "" in
          if (10 * 1024 * 1024 <? size)%Z
          then scan_large_files rest (large_files ++ [(filename, size)])%list
          else scan_large_files rest large_files
        else scan_large_files rest large_files
      else scan_large_files rest large_files
  end.

(** The final part of the health check, which prints the report. *)
Definition print_metric (kv : string * metric) : M unit :=
  match kv with
  | (key, FilesMetric value) =>
      print ("   - " ++ key ++ ": " ++ Py.str_of_nat (length value) ++ " files")
  | (key, IntMetric value) =>
      print ("   - " ++ key ++ ": " ++ Py.str_of_Z value)
  end.

Definition print_report (health_report : health_report) : M unit :=
  print ("📊 Repository Status: " ++ Py.upper (status health_report));;
  match issues health_report with
  | [] => ret tt
  | l => print "⚠️  Issues found:";;
         for_each l (fun issue => print ("   - " ++ issue))
  end;;
  match recommendations health_report with
  | [] => ret tt
  | l => print "💡 Recommendations:";;
         for_each l (fun rec => print ("   - " ++ rec))
  end;;
  match metrics health_report with
  | [] => ret tt
  | l => print "📈 Metrics:";;
         for_each l print_metric
  end.

(** The health check gathers its signals one after the other; each of the
    four definitions below is one commented part of the method and takes
    the report as the parts before left it.  A guarded part changes the
    report only after its last step that can raise, so a part that raises
    leaves the report as it found it. *)

(** [# Check for uncommitted changes] *)
Definition check_uncommitted (report : health_report) : M health_report :=
  stdout <- _run_git_command ["status"; "--porcelain"];;
  ret (if truthy (Py.strip stdout)
       then set_status "warning" (add_issue "Uncommitted changes detected" report)
       else report).

(** [# Check for unpushed commits] *)
Definition check_unpushed (report : health_report) : M health_report :=
  try_except
    (stdout <- _run_git_command ["log"; "origin/main..HEAD"; "--oneline"];;
     let unpushed_commits :=
       if truthy (Py.strip stdout)
       then length (Py.split Py.LF (Py.strip stdout)) else 0%nat in
     let r := set_metric "unpushed_commits"
                (IntMetric (Z.of_nat unpushed_commits)) report in
     ret (if (0 <? unpushed_commits)%nat
          then set_status "warning"
                 (add_issue (Py.str_of_nat unpushed_commits
                             ++ " unpushed commits on current branch") r)
          else r))
    anything
    (fun _ => ret report).

(** [# Check branch age] *)
Definition check_branch_age (report : health_report) : M health_report :=
  try_except
    (stdout <- _run_git_command ["show"; "-s"; "--format=%ci"; "HEAD"];;
     d <- ask (fun t => days_since env t (Py.replace_space_plus (Py.strip stdout)))
            Now;;
     match d with
     | inl msg => raise (Failure msg)
     | inr days_since_commit =>
         let r := set_metric "days_since_last_commit"
                    (IntMetric days_since_commit) report in
         ret (if (30 <? days_since_commit)%Z
              then add_recommendation "Consider making more frequent commits" r
              else r)
     end)
    anything
    (fun _ => ret report).

(** [# Check for large files] *)
Definition check_large_files (report : health_report) : M health_report :=
  try_except
    (stdout <- _run_git_command ["ls-files"; "-s"];;
     large_files <- scan_large_files (Py.split Py.LF stdout) [];;
     ret (match large_files with
          | [] => report
          | _ =>
              set_metric "large_files" (FilesMetric large_files)
                (add_recommendation "Consider using Git LFS for large files"
                   (add_issue (Py.str_of_nat (length large_files)
                               ++ " large files detected") report))
          end))
    anything
    (fun _ => ret report).

Definition repository_health_check : M health_report :=
  print "🏥 Performing repository health check...";;
  let health_report :=
    {| status := "healthy"; issues := []; recommendations := []; metrics := [] |} in
  health_report <- check_uncommitted health_report;;
  health_report <- check_unpushed health_report;;
  health_report <- check_branch_age health_report;;
  health_report <- check_large_files health_report;;
  print_report health_report;;
  ret health_report.

Definition sync_with_remote (self : automator) (branch : option string) : M unit :=
  let branch := if truthy_opt branch
                then match branch with Some b => b | None => "" end
                else current_branch self in
  print ("🔄 Syncing " ++ branch ++ " with remote...");;
  _run_git_command ["fetch"; "origin"];;
  try_except
    (_run_git_command ["rev-parse"; "origin/" ++ branch];;
     _run_git_command ["pull"; "origin"; branch];;
     print ("✅ " ++ branch ++ " synced with remote"))
    anything
    (fun _ =>
       print ("⚠️  Remote branch origin/" ++ branch ++ " doesn't exist");;
       print "Creating remote branch...";;
       _run_git_command ["push"; "-u"; "origin"; branch];;
       print "✅ Remote branch created and synced").

Definition _update_package_json_version (version : string) : M unit :=
  try_except
    (r <- ask (fun t => read_file env t "package.json") (ReadFile "package.json");;
     match r with
     | inr msg => raise (Failure msg)
     | inl text =>
         match json_set_version env text version with
         | inr msg => raise (Failure msg)
         | inl text' =>
             w <- ask (fun t => write_file env t "package.json" text')
                    (WriteFile "package.json" text');;
             match w with
             | Some msg => raise (Failure msg)
             | None => ret tt
             end
         end
     end)
    is_Exception
    (fun e => print ("⚠️  Could not update package.json: " ++ str_of_exn e)).

Definition update_version_file (version version_file : string) : M unit :=
  present <- ask (fun t => path_exists env t version_file) (PathExists version_file);;
  if present : bool then
    print ("Updating version in " ++ version_file);;
    if String.eqb version_file "package.json"
    then _update_package_json_version version
    else
      w <- ask (fun t => write_file env t version_file (version ++ Py.nl))
             (WriteFile version_file (version ++ Py.nl));;
      match w with
      | Some msg => raise (Failure msg)
      | None => ret tt
      end
  else ret tt.

Definition create_release_branch (version base_branch : string) : M unit :=
  print ("Creating release branch: release/" ++ version);;
  if negb (version_re_match version)
  then print "❌ Version must follow semantic versioning format (x.y.z)"
  else
    _run_git_command ["checkout"; base_branch];;
    _run_git_command ["pull"; "origin"; base_branch];;
    let branch_name := "release/" ++ version in
    _run_git_command ["checkout"; "-b"; branch_name];;
    let version_files := ["version.txt"; "VERSION"; "package.json"] in
    for_each version_files (update_version_file version);;
    _run_git_command ["add"; "."];;
    _run_git_command ["commit"; "-m"; "Bump version to " ++ version];;
    _run_git_command ["push"; "-u"; "origin"; branch_name];;
    print ("🚀 Release branch '" ++ branch_name ++ "' created and pushed to remote").

(** The chain of [if] and [elif] inside the [try] of [main]. *)
Definition dispatch (automator : automator) (c : command) : M unit :=
  match c with
  | FeatureStart name base => create_feature_branch name base
  | FeatureFinish name target => finish_feature automator name target
  | FeatureNoAction => ret tt
  | Hotfix name base => create_hotfix_branch name base
  | Release version base => create_release_branch version base
  | Cleanup _ no_dry_run =>
      let dry_run := negb no_dry_run in
      clean_merged_branches dry_run
  | Health => repository_health_check;; ret tt
  | Sync branch => sync_with_remote automator branch
  | NoCommand => ret tt
  end.

(** [main], from the parsed arguments on.  (Its handler of
    [KeyboardInterrupt] has nothing to catch in this model.) *)
Definition main (a : args) : M unit :=
  match cmd_of a with
  | NoCommand => emit PrintHelp
  | c =>
      automator <- GitWorkflowAutomator (repository a);;
      try_except
        (dispatch automator c)
        is_Exception
        (fun e => print ("❌ Error: " ++ str_of_exn e);; sys_exit 1)
  end.

(** The script run as a program: the exit status of the process and the
    trace it leaves.  [SystemExit] ends the process with its code; any other
    exception that nobody caught is reported by the interpreter, and the
    status is 1. *)
Definition script (a : args) (t : trace) : Z * trace :=
  match main a t with
  | (Return _, t') => (0%Z, t')
  | (Raise (SystemExit code), t') => (code, t')
  | (Raise e, t') => (1%Z, (t' ++ [Traceback e])%list)
  end.

End Automator.

(** ** Reading a trace *)

(** The [git] command at trace [t] ran and gave return code zero. *)
Definition git_ok (env : Env) (t : trace) (argv : list string) : bool :=
  match run_git env t argv with
  | Completed rc _ _ => (rc =? 0)%Z
  | NotRun _ => false
  end.

(** Some [git] command recorded in [d] failed; [pre] is the trace before
    [d], which the environment saw when it answered. *)
Fixpoint git_failed (env : Env) (pre d : trace) : bool :=
  match d with
  | [] => false
  | ev :: r =>
      match ev with
      | Git argv => negb (git_ok env pre argv)
      | _ => false
      end
      || git_failed env (pre ++ [ev])%list r
  end.

(** The [git] commands of a trace, in order. *)
Definition git_commands (d : trace) : list (list string) :=
  flat_map (fun ev => match ev with Git argv => [argv] | _ => [] end) d.

(** The create-pull-request calls of a trace. *)
Definition pull_request_calls (d : trace) : trace :=
  filter (fun ev => match ev with CreatePullRequest _ _ _ _ _ => true | _ => false end) d.

(** The lines printed in a trace. *)
Definition printed (d : trace) : list string :=
  flat_map (fun ev => match ev with Print s => [s] | _ => [] end) d.

(** The interaction [ev], made at trace [pre], failed. *)
Definition failed (env : Env) (pre : trace) (ev : event) : bool :=
  match ev with
  | Git argv => negb (git_ok env pre argv)
  | Boto3Client service =>
      match boto3_client env pre service with Some _ => true | None => false end
  | CreatePullRequest title description repo source destination =>
      match create_pull_request env pre title description repo source destination with
      | inr _ => true
      | inl _ => false
      end
  | ReadFile path =>
      match read_file env pre path with inr _ => true | inl _ => false end
  | WriteFile path content =>
      match write_file env pre path content with Some _ => true | None => false end
  | _ => false
  end.

(** Some command or call recorded in [d] failed. *)
Fixpoint any_failed (env : Env) (pre d : trace) : bool :=
  match d with
  | [] => false
  | ev :: r => failed env pre ev || any_failed env (pre ++ [ev])%list r
  end.

(** A line that reports an error of a command: the two lines of
    [_run_git_command] start with the first prefix, the line of [main] with
    the second. *)
Definition is_error_line (line : string) : bool :=
  String.prefix "Git command failed: " line || String.prefix "❌ Error: " line.

Definition error_printed (d : trace) : bool :=
  existsb (fun ev => match ev with Print line => is_error_line line | _ => false end) d.

(** A computation is quiet when it runs no [git] command. *)
Definition quiet_run {A} (m : M A) : Prop :=
  forall t, exists d, snd (m t) = (t ++ d)%list /\ git_commands d = [].

(** In a fatal computation a [git] command that fails ends the computation:
    with [SystemExit(1)] after an error line, or with the exception of a
    command that could not be run. *)
Definition fatal (env : Env) {A} (m : M A) : Prop :=
  forall t, exists d,
    snd (m t) = (t ++ d)%list
    /\ (git_failed env t d = true ->
        (fst (m t) = Raise (SystemExit 1) /\ error_printed d = true)
        \/ exists msg, fst (m t) = Raise (Failure msg)).

(** ** The commands and the lines of the script, by name *)

Definition rev_parse_head : list string := ["rev-parse"; "--abbrev-ref"; "HEAD"].

Definition feature_commands (name base : string) : list (list string) :=
  [ ["checkout"; base];
    ["pull"; "origin"; base];
    ["checkout"; "-b"; "feature/" ++ name];
    ["push"; "-u"; "origin"; "feature/" ++ name] ].

Definition list_merged : list string := ["branch"; "--merged"; "main"].

(** The deletion commands of the cleanup. *)
Definition delete_local (branch : string) : list string := ["branch"; "-d"; branch].

Definition delete_remote (branch : string) : list string :=
  ["push"; "origin"; "--delete"; branch].

Definition cleaning : string := "🧹 Cleaning up merged branches...".

Definition health_banner : string := "🏥 Performing repository health check...".

Definition status_porcelain : list string := ["status"; "--porcelain"].

Definition log_unpushed : list string := ["log"; "origin/main..HEAD"; "--oneline"].

Definition version_error : string :=
  "❌ Version must follow semantic versioning format (x.y.z)".

(** The second line of the notice that [finish_feature] prints when it
    cannot open the pull request itself. *)
Definition manual_instruction (name target : string) : string :=
  "Please create a pull request manually from " ++ ("feature/" ++ name)
  ++ " to " ++ target.

(** The branch that [sync_with_remote] works on. *)
Definition sync_branch (self : automator) (branch : option string) : string :=
  match branch with
  | Some b => if truthy b then b else current_branch self
  | None => current_branch self
  end.

(** What the comprehension asks of a line. *)
Definition kept_line (branch : string) : bool :=
  truthy (Py.strip branch)
  && negb (Py.startswith "*" (Py.strip branch))
  && negb (Py.contains "main" branch).

(** The log command at trace [t] succeeds and lists at least one commit. *)
Definition unpushed_commits_present (env : Env) (t : trace) : bool :=
  match run_git env t log_unpushed with
  | Completed 0 out _ => truthy (Py.strip out)
  | _ => false
  end.

(** The operations that set up, create and push branches. *)
Definition branch_flow (c : command) : bool :=
  match c with
  | FeatureStart _ _ | FeatureFinish _ _ | Hotfix _ _ | Release _ _ => true
  | _ => false
  end.

(** ** The output of [git branch --merged main]

    One line for each merged branch: two columns, with [*] in the first on
    the branch that is checked out, then the name. *)
Definition branch_line (b : bool * string) : string :=
  (if fst b then "* " else "  ") ++ snd b.

Fixpoint branch_listing (bs : list (bool * string)) : string :=
  match bs with
  | [] => ""
  | b :: r => branch_line b ++ Py.nl ++ branch_listing r
  end.

(** What every branch name satisfies: it is not empty, has no white space
    at either end, has no line feed and does not start with a star. *)
Definition branch_name_ok (n : string) : bool :=
  truthy n && String.eqb (Py.strip n) n
  && negb (Py.has_char Py.LF n) && negb (Py.startswith "*" n).

(** The candidates in the words of the specification: the merged branches
    other than the main line itself and the checked-out branch. *)
Definition candidates_in_words (bs : list (bool * string)) : list string :=
  map snd (filter (fun b => negb (fst b) && negb (String.eqb (snd b) "main")) bs).

(** The candidates of the script: the merged branches other than the
    checked-out branch and the branches with [main] anywhere in the name. *)
Definition candidates_kept (bs : list (bool * string)) : list string :=
  map snd (filter (fun b => negb (fst b) && negb (Py.contains "main" (snd b))) bs).

(** ** Versions in the words of the specification

    Three integers in decimal notation, none of them negative, separated by
    dots. *)
Definition all_digits (s : string) : bool :=
  forallb Py.isdigit (list_ascii_of_string s).

Definition decimal (s : string) : bool := truthy s && all_digits s.

Definition three_integers (version : string) : bool :=
  match Py.split "." version with
  | [major; minor; patch] => decimal major && decimal minor && decimal patch
  | _ => false
  end.

(** The text [r] does not go on with a digit. *)
Definition starts_without_digit (r : string) : Prop :=
  match r with
  | "" => True
  | String c _ => Py.isdigit c = false
  end.

(** ** Environments to run the model in *)

Definition argv_eqb (a b : list string) : bool :=
  if list_eq_dec string_dec a b then true else false.

Fixpoint answer_of (table : list (list string * completed)) (argv : list string)
  : completed :=
  match table with
  | [] => Completed 0 "" ""
  | (a, c) :: r => if argv_eqb a argv then c else answer_of r argv
  end.

(** An environment that answers a [git] command from a table, whatever came
    before, and lets every command that is not in the table succeed with no
    output.  No version file exists, the clock says [days] days. *)
Definition scripted (table : list (list string * completed))
    (pr : string + string) (days : Z) : Env :=
  {| run_git := fun _ argv => answer_of table argv;
     boto3_client := fun _ _ => None;
     create_pull_request := fun _ _ _ _ _ _ => pr;
     path_exists := fun _ _ => false;
     read_file := fun _ _ => inr "[Errno 2] No such file or directory: 'package.json'";
     write_file := fun _ _ _ => None;
     json_set_version := fun text _ => inl text;
     days_since := fun _ _ => inr days |}.

Definition fails (stderr : string) : completed := Completed 1 "" stderr.
Definition gives (stdout : string) : completed := Completed 0 stdout "".

(** In an environment where every command succeeds with no output. *)
Definition quiet : Env := scripted [] (inl "1") 0.

(** An environment outside any repository: the current-branch query fails
    as [git] does there. *)
Definition outside_repository : Env :=
  scripted
    [(rev_parse_head,
      Completed 128 "" "fatal: not a git repository (or any of the parent directories): .git")]
    (inl "1") 0.

(** An environment whose remote has no branch [topic]. *)
Definition no_remote_topic : Env :=
  scripted
    [(["rev-parse"; "origin/topic"],
      Completed 128 "origin/topic"
        "fatal: ambiguous argument 'origin/topic': unknown revision or path not in the working tree.")]
    (inl "1") 0.

(** An environment whose remote has the branch, and in which the pull
    stops on a conflict. *)
Definition pull_conflict : Env :=
  scripted
    [(["pull"; "origin"; "main"],
      Completed 1 "" "error: Your local changes to the following files would be overwritten by merge")]
    (inl "1") 0.

(** An environment with three merged branches, of which the first cannot be
    deleted locally. *)
Definition three_merged : Env :=
  scripted
    [(list_merged,
      gives ("  fix-1" ++ Py.nl ++ "  fix-2" ++ Py.nl ++ "* main" ++ Py.nl
             ++ "  topic" ++ Py.nl));
     (delete_local "fix-1", fails "error: branch 'fix-1' not found.")]
    (inl "1") 0.

(** The output of [git ls-files -s] as the large-file scan reads it, with a
    size in the fourth field: one file of 20 MiB. *)
Definition one_large_file : string :=
  "100644 e69de29bb2d1d6434b8b29ae775ad8c2e48c5391 0 20971520"
  ++ String Py.TAB "big.bin" ++ Py.nl.

(** A clean, pushed working tree that tracks that file. *)
Definition clean_with_large_file : Env :=
  scripted [(["ls-files"; "-s"], gives one_large_file)] (inl "1") 2.

(** The output of [git ls-files -s] as [git] prints it: mode, object and
    stage, then the path. *)
Definition ls_files_of_git : string :=
  "100644 e69de29bb2d1d6434b8b29ae775ad8c2e48c5391 0"
  ++ String Py.TAB "big.bin" ++ Py.nl.

(** An environment in which CodeCommit refuses the pull request. *)
Definition pull_request_refused : Env :=
  scripted []
    (inr "An error occurred (RepositoryDoesNotExistException) when calling the CreatePullRequest operation: demo does not exist")
    0.

(** An environment in which the push of the new feature branch is
    rejected. *)
Definition push_rejected : Env :=
  scripted
    [(["push"; "-u"; "origin"; "feature/login"],
      Completed 1 "" "error: failed to push some refs to 'origin'")]
    (inl "1") 0.

(** An automator on the main line, with no repository name. *)
Definition on_main : automator :=
  {| repository_name := None; current_branch := "main" |}.

Definition finish_login : args :=
  {| repository := Some "demo"; cmd_of := FeatureFinish "login" "main" |}.

Definition start_login : args :=
  {| repository := None; cmd_of := FeatureStart "login" "main" |}.

(** Merged branches of a repository that has a maintenance branch. *)
Definition with_maintenance : list (bool * string) :=
  [(false, "feature/login"); (true, "main"); (false, "maintenance/x")].

(** ** A simulated repository

    An environment in which [git] keeps a checked-out branch, the local
    branches and the branches of the remote, and in which the commands of
    branch creation do to them what [git] documents: [checkout] switches to
    a local branch, [checkout -b] creates one and switches to it, [pull]
    needs the branch on the remote and [push] puts a local branch there. *)
Record repo : Type := {
  head : string;
  local_branches : list string;
  remote_branches : list string
}.

Definition has_branch (b : string) (l : list string) : bool :=
  existsb (String.eqb b) l.

Definition refused (stderr : string) (r : repo) : completed * repo :=
  (Completed 1 "" stderr, r).

Definition git_sim (r : repo) (argv : list string) : completed * repo :=
  match argv with
  | [c; b] =>
      if String.eqb c "checkout" then
        if has_branch b (local_branches r)
        then (Completed 0 "" "",
              {| head := b; local_branches := local_branches r;
                 remote_branches := remote_branches r |})
        else refused ("error: pathspec '" ++ b ++ "' did not match any file(s) known to git") r
      else (Completed 0 "" "", r)
  | [c; o; b] =>
      if String.eqb c "checkout" && String.eqb o "-b" then
        if has_branch b (local_branches r)
        then refused ("fatal: a branch named '" ++ b ++ "' already exists") r
        else (Completed 0 "" "",
              {| head := b; local_branches := b :: local_branches r;
                 remote_branches := remote_branches r |})
      else if String.eqb c "pull" && String.eqb o "origin" then
        if has_branch b (remote_branches r)
        then (Completed 0 "" "", r)
        else refused ("fatal: couldn't find remote ref " ++ b) r
      else (Completed 0 "" "", r)
  | [c; u; o; b] =>
      if String.eqb c "push" && String.eqb u "-u" && String.eqb o "origin" then
        if has_branch b (local_branches r)
        then (Completed 0 "" "",
              {| head := head r; local_branches := local_branches r;
                 remote_branches := b :: remote_branches r |})
        else refused ("error: src refspec " ++ b ++ " does not match any") r
      else (Completed 0 "" "", r)
  | _ => (Completed 0 "" "", r)
  end.

(** The repository after the [git] commands of a trace. *)
Definition replay (r : repo) (t : trace) : repo :=
  fold_left
    (fun r ev => match ev with Git argv => snd (git_sim r argv) | _ => r end)
    t r.

Definition simulated (r0 : repo) : Env :=
  {| run_git := fun t argv => fst (git_sim (replay r0 t) argv);
     boto3_client := fun _ _ => None;
     create_pull_request := fun _ _ _ _ _ _ => inl "1";
     path_exists := fun _ _ => false;
     read_file := fun _ _ => inr "[Errno 2] No such file or directory: 'package.json'";
     write_file := fun _ _ _ => None;
     json_set_version := fun text _ => inl text;
     days_since := fun _ _ => inr 0%Z |}.

(** A repository with its main line only, checked out and pushed. *)
Definition fresh_repo : repo :=
  {| head := "main"; local_branches := ["main"]; remote_branches := ["main"] |}.

(** ** What every operation keeps *)

(** A deletion of a branch, local or on the remote. *)
Definition is_deletion (argv : list string) : bool :=
  match argv with
  | [a; b; _] => String.eqb a "branch" && String.eqb b "-d"
  | [a; b; c; _] =>
      String.eqb a "push" && String.eqb b "origin" && String.eqb c "--delete"
  | _ => false
  end.

Definition keeps_branches (argv : list string) : bool := negb (is_deletion argv).

Definition any_command (_ : list string) : bool := true.

(** How a tame computation may end, [d] being what it added to the trace:
    it returns, or it exits with code 1 after an error line, or it raises
    an exception that is not [CalledProcessError]. *)
Definition ends_well {A} (r : result A) (d : trace) : Prop :=
  match r with
  | Return _ => True
  | Raise (SystemExit code) => code = 1%Z /\ error_printed d = true
  | Raise (CalledProcessError _ _ _) => False
  | Raise (Failure _) => True
  end.

(** A computation is tame for [P] when it only adds to the trace, when all
    its [git] commands satisfy [P], and when it ends well. *)
Definition tame (P : list string -> bool) {A} (m : M A) : Prop :=
  forall t, exists d,
    snd (m t) = (t ++ d)%list
    /\ forallb P (git_commands d) = true
    /\ ends_well (fst (m t)) d.

(** The cleanup with [--no-dry-run]. *)
Definition asks_for_deletion (c : command) : bool :=
  match c with
  | Cleanup _ no_dry_run => no_dry_run
  | _ => false
  end.

(** The commands of a hotfix and of a release, in order. *)
Definition hotfix_commands (name base : string) : list (list string) :=
  [ ["checkout"; base];
    ["pull"; "origin"; base];
    ["checkout"; "-b"; "hotfix/" ++ name];
    ["push"; "-u"; "origin"; "hotfix/" ++ name] ].

Definition release_commands (version base : string) : list (list string) :=
  [ ["checkout"; base];
    ["pull"; "origin"; base];
    ["checkout"; "-b"; "release/" ++ version];
    ["add"; "."];
    ["commit"; "-m"; "Bump version to " ++ version];
    ["push"; "-u"; "origin"; "release/" ++ version] ].

(** A working tree with the given files, whose files cannot be written when
    [denied] holds a message; every [git] command succeeds. *)
Definition tree_with (files : list (string * string)) (denied : option string) : Env :=
  {| run_git := fun _ _ => Completed 0 "" "";
     boto3_client := fun _ _ => None;
     create_pull_request := fun _ _ _ _ _ _ => inl "1";
     path_exists := fun _ path => existsb (fun f => String.eqb (fst f) path) files;
     read_file := fun _ path =>
       match find (fun f => String.eqb (fst f) path) files with
       | Some f => inl (snd f)
       | None => inr "[Errno 2] No such file or directory"
       end;
     write_file := fun _ _ _ => denied;
     json_set_version := fun _ version => inl ("version " ++ version);
     days_since := fun _ _ => inr 0%Z |}.

(** The interaction reads or writes a file. *)
Definition touches_file (ev : event) : bool :=
  match ev with
  | ReadFile _ | WriteFile _ _ => true
  | _ => false
  end.

Definition release_banner (version : string) : string :=
  "Creating release branch: release/" ++ version.

(** A working tree whose [version.txt] exists and is read-only. *)
Definition read_only_tree : Env :=
  tree_with [("version.txt", "1.2.2" ++ Py.nl)]
    (Some "[Errno 13] Permission denied: 'version.txt'").

(** ** The health report *)

(** A report that warns lists an issue. *)
Definition warns_with_issue (r : health_report) : Prop :=
  status r = "warning" -> issues r <> [].

(** The four queries of the health check. *)
Definition health_queries : list (list string) :=
  [ status_porcelain; log_unpushed;
    ["show"; "-s"; "--format=%ci"; "HEAD"]; ["ls-files"; "-s"] ].

(** The threshold of the large-file scan, 10 MiB. *)
Definition large_file_threshold : Z := 10 * 1024 * 1024.

(** The lines of the printed report. *)
Definition metric_line (kv : string * metric) : string :=
  match kv with
  | (key, FilesMetric value) =>
      "   - " ++ key ++ ": " ++ Py.str_of_nat (length value) ++ " files"
  | (key, IntMetric value) => "   - " ++ key ++ ": " ++ Py.str_of_Z value
  end.

Definition section_lines {A} (title : string) (line : A -> string) (l : list A)
  : list string :=
  match l with
  | [] => []
  | _ => title :: map line l
  end.

Definition status_line (r : health_report) : string :=
  "📊 Repository Status: " ++ Py.upper (status r).

Definition item_line (item : string) : string := "   - " ++ item.

Definition report_lines (r : health_report) : list string :=
  (status_line r
   :: section_lines "⚠️  Issues found:" item_line (issues r)
   ++ section_lines "💡 Recommendations:" item_line (recommendations r)
   ++ section_lines "📈 Metrics:" metric_line (metrics r))%list.

(** A working tree with a modified file. *)
Definition dirty_tree : Env :=
  scripted [(status_porcelain, gives (" M README.md" ++ Py.nl))] (inl "1") 0.

(** A field of a line of [git ls-files -s]: not empty, no white space. *)
Definition word (w : string) : bool :=
  truthy w && forallb (fun c => negb (Py.isspace c)) (list_ascii_of_string w).

(** A line of [git ls-files -s] as [git] prints it. *)
Definition ls_files_line (mode object stage path : string) : string :=
  mode ++ " " ++ object ++ " " ++ stage ++ String Py.TAB path.

(** A line as the scan reads it, with the size as a fourth field. *)
Definition sized_line (size path : string) : string :=
  "100644 e69de29 0 " ++ size ++ String Py.TAB path.

(** An entry of a listing that carries sizes: the fields of its line and
    the number that the size field denotes. *)
Record sized_entry : Type := {
  e_mode : string;
  e_object : string;
  e_stage : string;
  e_size : string;
  e_value : Z;
  e_path : string
}.

Definition entry_line (e : sized_entry) : string :=
  e_mode e ++ " " ++ e_object e ++ " " ++ e_stage e ++ " " ++ e_size e
  ++ String Py.TAB (e_path e).

Definition entry_ok (e : sized_entry) : Prop :=
  word (e_mode e) = true /\ word (e_object e) = true /\ word (e_stage e) = true
  /\ word (e_size e) = true /\ Py.int (e_size e) = Some (e_value e)
  /\ Py.has_char Py.TAB (e_path e) = false.

Definition is_large (e : sized_entry) : bool :=
  (large_file_threshold <? e_value e)%Z.

(** Two entries, one of 20 MiB and one of 1 KiB. *)
Definition two_entries : list sized_entry :=
  [ {| e_mode := "100644"; e_object := "e69de29"; e_stage := "0";
       e_size := "20971520"; e_value := 20971520; e_path := "big.bin" |};
    {| e_mode := "100644"; e_object := "8ab686e"; e_stage := "0";
       e_size := "1024"; e_value := 1024; e_path := "README.md" |} ].

(** An environment whose [git ls-files -s] answers as [git] does. *)
Definition lists_files_as_git : Env :=
  scripted [(["ls-files"; "-s"], gives ls_files_of_git)] (inl "1") 0.

(** The report the health check starts from. *)
Definition empty_report : health_report :=
  {| status := "healthy"; issues := []; recommendations := []; metrics := [] |}.

(** What [lstrip] leaves starts with a character that is not white space. *)
Definition starts_clean (s : string) : Prop :=
  match s with
  | "" => True
  | String c _ => Py.isspace c = false
  end.


(** An environment on the branch [feature/login]. *)
Definition on_feature_login : Env :=
  scripted [(rev_parse_head, gives ("feature/login" ++ Py.nl))] (inl "1") 0.

(** The fixed text of the pull-request description, before and after the
    title. *)
Definition description_head : string := "## Description" ++ Py.nl.

Definition description_tail : string :=
  String.concat Py.nl
    [ "";
      "";
      "## Type of Change";
      "- [ ] Bug fix";
      "- [x] New feature";
      "- [ ] Breaking change";
      "- [ ] Documentation update";
      "";
      "## Testing";
      "- [ ] Unit tests pass";
      "- [ ] Integration tests pass";
      "- [ ] Manual testing completed";
      "";
      "## Checklist";
      "- [ ] Code follows project style guidelines";
      "- [ ] Self-review completed";
      "- [ ] Documentation updated";
      "- [ ] No sensitive data exposed" ].

(** What [git log --oneline] prints: a line for each commit. *)
Fixpoint oneline_log (commits : list string) : string :=
  match commits with
  | [] => ""
  | c :: r => c ++ Py.nl ++ oneline_log r
  end.

(** A line of the log: not empty, on one line, no white space around it. *)
Definition commit_line_ok (c : string) : bool :=
  truthy c && String.eqb (Py.strip c) c && negb (Py.has_char Py.LF c).

(** An environment with two commits that were not pushed. *)
Definition two_unpushed : Env :=
  scripted
    [(log_unpushed, gives (oneline_log ["1a2b3c4 Add login form"; "5d6e7f8 Fix typo"]))]
    (inl "1") 0.

(** An environment whose repository has no branch [main]: the listing of
    the merged branches fails. *)
Definition no_main_branch : Env :=
  scripted [(list_merged, fails "fatal: malformed object name main")] (inl "1") 0.

(** An environment without a configured region: the client cannot be
    made. *)
Definition no_region : Env :=
  {| run_git := fun _ _ => Completed 0 "" "";
     boto3_client := fun _ _ => Some "You must specify a region.";
     create_pull_request := fun _ _ _ _ _ _ => inl "1";
     path_exists := fun _ _ => false;
     read_file := fun _ _ => inr "[Errno 2] No such file or directory: 'package.json'";
     write_file := fun _ _ _ => None;
     json_set_version := fun text _ => inl text;
     days_since := fun _ _ => inr 0%Z |}.

Definition sync_current : args := {| repository := None; cmd_of := Sync None |}.
(** ** Running a [git] command *)

#[local] Arguments String.append : simpl never.

(** Traces are compared with their appends nested to the right. *)
Ltac trace_norm := repeat rewrite <- app_assoc; cbn [app].

(** The operations of the monad, unfolded. *)
Ltac monad_unfold :=
  cbv beta iota delta [bind ask ret raise try_except emit print sys_exit].

Section Runner.

Variable env : Env.

(** The three ways [_run_git_command] can end. *)
Lemma run_git_command_cases (command : list string) (t : trace) :
  (exists out err,
      run_git env t command = Completed 0 out err
      /\ _run_git_command env command t = (Return out, (t ++ [Git command])%list))
  \/ (exists rc out err,
         rc <> 0%Z
         /\ run_git env t command = Completed rc out err
         /\ _run_git_command env command t =
            (Raise (SystemExit 1),
             (t ++ [Git command;
                    Print ("Git command failed: " ++ Py.repr_list ("git" :: command));
                    Print ("Error: " ++ err)])%list))
  \/ (exists msg,
         run_git env t command = NotRun msg
         /\ _run_git_command env command t =
            (Raise (Failure msg), (t ++ [Git command])%list)).
Proof.
  unfold _run_git_command, try_except, subprocess_run_git, bind, ask.
  destruct (run_git env t command) as [rc out err | msg].
  - destruct (Z.eqb_spec rc 0) as [-> | Hrc].
    + left. now exists out, err.
    + right; left. exists rc, out, err.
      repeat split; trivial.
      unfold raise, print, emit, sys_exit, raise; cbn.
      now trace_norm.
  - right; right. now exists msg.
Qed.

End Runner.

(** ** The current branch and the constructor *)



(** ** Release branches *)

(** The validation on the examples of the specification. *)
Example version_examples :
  map version_re_match ["1.2.3"; "10.20.30"; "1.2"; "v1.2.3"; "1.2.3-beta"; "1..3"; ""]
  = [true; true; false; false; false; false; false].
Proof. reflexivity. Qed.

(** C10.  For a version that fails the validation, [create_release_branch]
    prints its two lines and returns normally without any other
    interaction; the script, once the automator is constructed, then ends
    with exit status 0. *)
Theorem invalid_version_exits_zero
    (env : Env) (repo : option string) (version base : string) (t : trace) :
  version_re_match version = false ->
  create_release_branch env version base t
  = (Return tt,
     (t ++ [Print ("Creating release branch: release/" ++ version);
            Print version_error])%list)
  /\ forall self t1,
       GitWorkflowAutomator env repo t = (Return self, t1) ->
       script env {| repository := repo; cmd_of := Release version base |} t
       = (0%Z,
          (t1 ++ [Print ("Creating release branch: release/" ++ version);
                  Print version_error])%list).
Proof.
  intros Hv.
  assert (Hr : forall t',
             create_release_branch env version base t'
             = (Return tt,
                (t' ++ [Print ("Creating release branch: release/" ++ version);
                        Print version_error])%list)).
  { intros t'. unfold create_release_branch, bind, print, emit.
    rewrite Hv. cbn. now trace_norm. }
  split.
  - apply Hr.
  - intros self t1 Hc.
    unfold script, main; cbn [cmd_of repository].
    unfold bind at 1. rewrite Hc.
    unfold try_except, dispatch. now rewrite Hr.
Qed.

(** The version [v1.2.3] is rejected, and the script ends with status 0. *)
Lemma invalid_version_exits_zero_witness :
  create_release_branch quiet "v1.2.3" "main" []
  = (Return tt,
     [Print "Creating release branch: release/v1.2.3"; Print version_error])
  /\ script quiet {| repository := None; cmd_of := Release "v1.2.3" "main" |} []
     = (0%Z,
        [Boto3Client "codecommit"; Git rev_parse_head;
         Print "Creating release branch: release/v1.2.3"; Print version_error]).
Proof.
  destruct (invalid_version_exits_zero quiet None "v1.2.3" "main" [])
    as [H1 H2].
  - reflexivity.
  - split.
    + exact H1.
    + apply (H2 {| repository_name := None; current_branch := "" |}
                [Boto3Client "codecommit"; Git rev_parse_head]).
      reflexivity.
Defined.

(** C3.  The version [1.2.3] followed by a line feed is not three integers
    separated by dots, and the validation accepts it: the [$] of the
    pattern also holds before a final line feed.  The release then goes on
    to its [git] commands, with the line feed in the branch name. *)
Theorem release_accepts_trailing_newline :
  three_integers ("1.2.3" ++ Py.nl) = false
  /\ version_re_match ("1.2.3" ++ Py.nl) = true
  /\ git_commands
       (snd (create_release_branch quiet ("1.2.3" ++ Py.nl) "main" []))
     = [ ["checkout"; "main"];
         ["pull"; "origin"; "main"];
         ["checkout"; "-b"; "release/1.2.3" ++ Py.nl];
         ["add"; "."];
         ["commit"; "-m"; "Bump version to 1.2.3" ++ Py.nl];
         ["push"; "-u"; "origin"; "release/1.2.3" ++ Py.nl] ].
Proof. repeat split. Qed.

(** ** Facts about traces *)

Lemma git_failed_app (env : Env) (pre d1 d2 : trace) :
  git_failed env pre (d1 ++ d2)%list
  = git_failed env pre d1 || git_failed env (pre ++ d1)%list d2.
Proof.
  revert pre. induction d1 as [| ev d1 IH]; intros pre; cbn [app git_failed].
  - now rewrite app_nil_r.
  - rewrite IH, <- app_assoc, orb_assoc. reflexivity.
Qed.

Lemma git_commands_app (d1 d2 : trace) :
  git_commands (d1 ++ d2)%list = (git_commands d1 ++ git_commands d2)%list.
Proof. apply flat_map_app. Qed.

Lemma git_ok_of_completed (env : Env) (t : trace) (c : list string) (out err : string) :
  run_git env t c = Completed 0 out err -> git_ok env t c = true.
Proof. unfold git_ok. now intros ->. Qed.

Lemma git_ok_of_code (env : Env) (t : trace) (c : list string)
    (rc : Z) (out err : string) :
  rc <> 0%Z -> run_git env t c = Completed rc out err -> git_ok env t c = false.
Proof. unfold git_ok. intros Hrc ->. now apply Z.eqb_neq. Qed.

Lemma git_ok_of_not_run (env : Env) (t : trace) (c : list string) (msg : string) :
  run_git env t c = NotRun msg -> git_ok env t c = false.
Proof. unfold git_ok. now intros ->. Qed.

(** A loop that prints one line for each element. *)
Lemma print_each_of {A} (body : A -> M unit) (f : A -> string) :
  (forall a t, body a t = (Return tt, (t ++ [Print (f a)])%list)) ->
  forall l t,
    for_each l body t = (Return tt, (t ++ map (fun a => Print (f a)) l)%list).
Proof.
  intros Hbody l. induction l as [| a l IH]; intros t; cbn [for_each map].
  - unfold ret. now rewrite app_nil_r.
  - unfold bind. rewrite Hbody, IH. now trace_norm.
Qed.

(** Case analysis on the next [_run_git_command] of the goal, recording
    whether the command was in order. *)
Ltac step_git :=
  match goal with
  | |- context [_run_git_command ?e ?c ?t] =>
      let out := fresh "out" in
      let err := fresh "err" in
      let rc := fresh "rc" in
      let msg := fresh "msg" in
      let Hq := fresh "Hq" in
      let Hrc := fresh "Hrc" in
      let Hok := fresh "Hok" in
      destruct (run_git_command_cases e c t)
        as [(out & err & Hq & ->)
           | [(rc & out & err & Hrc & Hq & ->) | (msg & Hq & ->)]];
      [ pose proof (git_ok_of_completed _ _ _ _ _ Hq) as Hok
      | pose proof (git_ok_of_code _ _ _ _ _ _ Hrc Hq) as Hok
      | pose proof (git_ok_of_not_run _ _ _ _ Hq) as Hok ];
      clear Hq; cbv beta iota
  end.

(** After the case analyses: the trace that was produced, the [git]
    commands in it, and whether one of them failed. *)
Ltac use_git_ok :=
  repeat match goal with
         | H : git_ok _ _ _ = _ |- _ => first [rewrite H | idtac]; clear H
         end.

Ltac read_trace :=
  trace_norm; eexists; split; [reflexivity |];
  cbn [git_failed git_commands flat_map app fst snd];
  use_git_ok; cbn [negb orb].

Ltac some_prefix :=
  first [ exists 0%nat; reflexivity | exists 1%nat; reflexivity
        | exists 2%nat; reflexivity | exists 3%nat; reflexivity
        | exists 4%nat; reflexivity ].

(** ** Starting a feature branch *)

(** The commands of [create_feature_branch] are the four of
    [feature_commands], in that order, up to the first one that fails; the
    method returns exactly when none fails. *)
Lemma feature_start_commands (env : Env) (name base : string) (t : trace) :
  exists d,
    snd (create_feature_branch env name base t) = (t ++ d)%list
    /\ (exists k, git_commands d = firstn k (feature_commands name base))
    /\ (git_failed env t d = false ->
        fst (create_feature_branch env name base t) = Return tt
        /\ git_commands d = feature_commands name base)
    /\ (fst (create_feature_branch env name base t) = Return tt ->
        git_failed env t d = false).
Proof.
  unfold create_feature_branch. monad_unfold.
  repeat step_git; read_trace;
    (split; [some_prefix | split; [intros H | intros H]; try discriminate H;
                           try (split; reflexivity); try reflexivity]).
Qed.

(** *** The simulated repository *)

Lemma git_sim_checkout (r : repo) (b : string) :
  has_branch b (local_branches r) = true ->
  git_sim r ["checkout"; b]
  = (Completed 0 "" "",
     {| head := b; local_branches := local_branches r;
        remote_branches := remote_branches r |}).
Proof. intros H. unfold git_sim. cbn. now rewrite H. Qed.

Lemma git_sim_pull (r : repo) (b : string) :
  has_branch b (remote_branches r) = true ->
  git_sim r ["pull"; "origin"; b] = (Completed 0 "" "", r).
Proof. intros H. unfold git_sim. cbn. now rewrite H. Qed.

Lemma git_sim_checkout_new (r : repo) (b : string) :
  has_branch b (local_branches r) = false ->
  git_sim r ["checkout"; "-b"; b]
  = (Completed 0 "" "",
     {| head := b; local_branches := b :: local_branches r;
        remote_branches := remote_branches r |}).
Proof. intros H. unfold git_sim. cbn. now rewrite H. Qed.

Lemma git_sim_push_upstream (r : repo) (b : string) :
  has_branch b (local_branches r) = true ->
  git_sim r ["push"; "-u"; "origin"; b]
  = (Completed 0 "" "",
     {| head := head r; local_branches := local_branches r;
        remote_branches := b :: remote_branches r |}).
Proof. intros H. unfold git_sim. cbn. now rewrite H. Qed.

Lemma replay_app (r : repo) (t d : trace) :
  replay r (t ++ d)%list = replay (replay r t) d.
Proof. apply fold_left_app. Qed.

(** A command that the simulated repository accepts. *)
Lemma simulated_run (r0 r' : repo) (c : list string) (t : trace) :
  git_sim (replay r0 t) c = (Completed 0 "" "", r') ->
  _run_git_command (simulated r0) c t = (Return "", (t ++ [Git c])%list)
  /\ replay r0 (t ++ [Git c])%list = r'.
Proof.
  intros H. split.
  - unfold _run_git_command, subprocess_run_git. monad_unfold.
    cbn [run_git simulated]. now rewrite H.
  - rewrite replay_app. cbn [replay fold_left]. now rewrite H.
Qed.

Lemma has_branch_head (b : string) (l : list string) : has_branch b (b :: l) = true.
Proof. unfold has_branch. cbn [existsb]. now rewrite String.eqb_refl. Qed.

(** In the simulated repository the four commands succeed when the base
    branch is known on both sides and the feature branch is new; the feature
    branch is then checked out and on the remote. *)
Lemma feature_start_simulated (r0 : repo) (name base : string) :
  has_branch base (local_branches r0) = true ->
  has_branch base (remote_branches r0) = true ->
  has_branch ("feature/" ++ name) (local_branches r0) = false ->
  exists d,
    create_feature_branch (simulated r0) name base [] = (Return tt, d)
    /\ head (replay r0 d) = "feature/" ++ name
    /\ has_branch ("feature/" ++ name) (remote_branches (replay r0 d)) = true.
Proof.
  intros Hl Hr Hn.
  unfold create_feature_branch. monad_unfold. cbn [app].
  set (t0 := [Print ("Creating feature branch: feature/" ++ name)]).
  assert (R0 : replay r0 t0 = r0) by reflexivity.
  destruct (simulated_run r0 _ ["checkout"; base] t0
              ltac:(rewrite R0; apply git_sim_checkout, Hl)) as [-> R1].
  destruct (simulated_run r0 _ ["pull"; "origin"; base] _
              ltac:(rewrite R1; apply git_sim_pull, Hr)) as [-> R2].
  destruct (simulated_run r0 _ ["checkout"; "-b"; "feature/" ++ name] _
              ltac:(rewrite R2; apply git_sim_checkout_new, Hn)) as [-> R3].
  destruct (simulated_run r0 _ ["push"; "-u"; "origin"; "feature/" ++ name] _
              ltac:(rewrite R3; apply git_sim_push_upstream, has_branch_head))
    as [-> R4].
  eexists. split; [reflexivity |].
  do 2 rewrite replay_app. rewrite R4.
  cbn [replay fold_left head remote_branches].
  split; [reflexivity | apply has_branch_head].
Qed.

(** C8.  Starting a feature branch issues [checkout base], [pull origin
    base], [checkout -b feature/<name>] and [push -u origin feature/<name>]
    in that order, stopping at the first that fails, and returns exactly
    when none fails; in a simulated repository that knows the base branch
    on both sides and has no such feature branch yet, the method returns
    and leaves [feature/<name>] checked out and present on the remote. *)
Theorem feature_start_creates_and_pushes
    (env : Env) (r0 : repo) (name base : string) (t : trace) :
  (exists d,
      snd (create_feature_branch env name base t) = (t ++ d)%list
      /\ (exists k, git_commands d = firstn k (feature_commands name base))
      /\ (git_failed env t d = false ->
          fst (create_feature_branch env name base t) = Return tt
          /\ git_commands d = feature_commands name base)
      /\ (fst (create_feature_branch env name base t) = Return tt ->
          git_failed env t d = false))
  /\ (has_branch base (local_branches r0) = true ->
      has_branch base (remote_branches r0) = true ->
      has_branch ("feature/" ++ name) (local_branches r0) = false ->
      exists d,
        create_feature_branch (simulated r0) name base [] = (Return tt, d)
        /\ head (replay r0 d) = "feature/" ++ name
        /\ has_branch ("feature/" ++ name) (remote_branches (replay r0 d)) = true).
Proof.
  split.
  - apply feature_start_commands.
  - apply feature_start_simulated.
Qed.

(** Starting the feature [login] from [main], where every command succeeds
    and in a fresh simulated repository. *)
Lemma feature_start_creates_and_pushes_witness :
  (fst (create_feature_branch quiet "login" "main" []) = Return tt
   /\ git_commands (snd (create_feature_branch quiet "login" "main" []))
      = feature_commands "login" "main")
  /\ exists d,
       create_feature_branch (simulated fresh_repo) "login" "main" [] = (Return tt, d)
       /\ head (replay fresh_repo d) = "feature/login"
       /\ has_branch "feature/login" (remote_branches (replay fresh_repo d)) = true.
Proof.
  destruct (feature_start_creates_and_pushes quiet fresh_repo "login" "main" [])
    as [(d & Hd & _ & Hok & _) Hsim].
  split.
  - rewrite Hd. cbn [app]. apply Hok.
    cbn [app] in Hd. rewrite <- Hd. reflexivity.
  - apply Hsim; reflexivity.
Defined.

(** ** Finishing a feature *)

Lemma prefix_refl (p : string) : String.prefix p p = true.
Proof.
  induction p as [| c p IH]; cbn; [reflexivity |].
  destruct (ascii_dec c c) as [_ | N]; [exact IH | now elim N].
Qed.

Lemma contains_refl (p : string) : Py.contains p p = true.
Proof. destruct p; cbn [Py.contains]; now rewrite prefix_refl. Qed.

Lemma contains_append (q p : string) : Py.contains p (q ++ p) = true.
Proof.
  induction q as [| c q IH].
  - apply contains_refl.
  - change (String c q ++ p) with (String c (q ++ p)).
    cbn [Py.contains]. rewrite IH. apply orb_true_r.
Qed.

(** [_create_pull_request] makes one call, prints, and returns whatever the
    call did. *)
Lemma create_pull_request_run (env : Env) (self : automator)
    (source target title : string) (t : trace) :
  exists lines,
    _create_pull_request env self source target title t
    = (Return tt,
       (t ++ CreatePullRequest ("Feature: " ++ title)
               (pull_request_description title) (repository_name self)
               ("refs/heads/" ++ source) ("refs/heads/" ++ target)
            :: map Print lines)%list).
Proof.
  unfold _create_pull_request. monad_unfold.
  destruct (create_pull_request env t _ _ _ _ _) as [id | msg]; cbv beta iota.
  - exists ["✅ Pull request created successfully!"; "🔗 Pull Request ID: " ++ id].
    now trace_norm.
  - exists ["❌ Failed to create pull request: " ++ msg].
    cbn [is_Exception str_of_exn]. now trace_norm.
Qed.

Lemma pull_request_calls_prints (lines : list string) :
  pull_request_calls (map Print lines) = [].
Proof. induction lines as [| l r IH]; [reflexivity | exact IH]. Qed.

Lemma git_failed_prints (env : Env) (pre : trace) (lines : list string) :
  git_failed env pre (map Print lines) = false.
Proof.
  revert pre. induction lines as [| l r IH]; intros pre; [reflexivity |].
  cbn [map git_failed orb]. apply IH.
Qed.

(** C6.  [finish_feature] without a repository name (none given, or the
    empty one) makes no create-pull-request call, and prints the manual
    instruction when its two [git] commands succeed; with a repository name
    it makes, when the two commands succeed, exactly one call, whose title
    is [Feature: <name>] and so contains the feature name, and no call when
    one of them fails. *)
Theorem finish_feature_pull_request
    (env : Env) (self : automator) (name target : string) (t : trace) :
  exists d,
    snd (finish_feature env self name target t) = (t ++ d)%list
    /\ (truthy_opt (repository_name self) = false ->
        pull_request_calls d = []
        /\ (git_failed env t d = false ->
            fst (finish_feature env self name target t) = Return tt
            /\ In (Print (manual_instruction name target)) d))
    /\ (truthy_opt (repository_name self) = true ->
        (git_failed env t d = false ->
         exists title description source destination,
           pull_request_calls d
           = [CreatePullRequest title description (repository_name self)
                source destination]
           /\ title = "Feature: " ++ name
           /\ Py.contains name title = true)
        /\ (git_failed env t d = true -> pull_request_calls d = [])).
Proof.
  unfold finish_feature. monad_unfold.
  step_git; [step_git |..].
  1: destruct (truthy_opt (repository_name self)) eqn:Hrepo;
       [ match goal with
         | |- context [_create_pull_request ?e ?s ?a ?b ?c ?t] =>
             destruct (create_pull_request_run e s a b c t) as [lines ->]
         end |].
  all: trace_norm; eexists; (split; [reflexivity |]);
    cbn [git_failed pull_request_calls filter fst];
    use_git_ok; cbn [negb orb];
    rewrite ?git_failed_prints, ?pull_request_calls_prints.
  all: split; [intros Hr; split; [| intros Hf] | intros Hr; split; intros Hf];
    try discriminate; try reflexivity.
  - exists ("Feature: " ++ name), (pull_request_description name),
      ("refs/heads/" ++ "feature/" ++ name), ("refs/heads/" ++ target).
    repeat split. apply contains_append.
  - split; [reflexivity |]. unfold manual_instruction. cbn [In]. tauto.
Qed.

(** Finishing the feature [login] without and with a repository name. *)
Lemma finish_feature_pull_request_witness :
  (pull_request_calls
     (snd (finish_feature quiet {| repository_name := None; current_branch := "main" |}
             "login" "main" [])) = []
   /\ In (Print (manual_instruction "login" "main"))
        (snd (finish_feature quiet {| repository_name := None; current_branch := "main" |}
                "login" "main" [])))
  /\ exists title description source destination,
       pull_request_calls
         (snd (finish_feature quiet
                 {| repository_name := Some "demo"; current_branch := "main" |}
                 "login" "main" []))
       = [CreatePullRequest title description (Some "demo") source destination]
       /\ title = "Feature: login"
       /\ Py.contains "login" title = true.
Proof.
  split.
  - destruct (finish_feature_pull_request quiet
                {| repository_name := None; current_branch := "main" |}
                "login" "main" []) as (d & Hd & Hnone & _).
    cbn [app] in Hd. rewrite Hd.
    destruct (Hnone eq_refl) as [Hcalls Hmsg].
    split; [exact Hcalls |].
    apply Hmsg. rewrite <- Hd. reflexivity.
  - destruct (finish_feature_pull_request quiet
                {| repository_name := Some "demo"; current_branch := "main" |}
                "login" "main" []) as (d & Hd & _ & Hsome).
    cbn [app] in Hd. rewrite Hd.
    destruct (Hsome eq_refl) as [Hcall _].
    apply Hcall. rewrite <- Hd. reflexivity.
Defined.

(** ** Syncing with the remote *)

(** C7.  [sync_with_remote] works on the branch given, or on the branch
    that was current when the automator was made if none is given.  Its
    first [git] command is [fetch origin].  When the fetch succeeds it asks
    for [origin/<branch>]: if that exists the next command is
    [pull origin <branch>], and if it does not exist no pull is issued and
    the last command is [push -u origin <branch>]. *)
Theorem sync_fetches_then_pulls_or_pushes
    (env : Env) (self : automator) (branch : option string) (t : trace) :
  let b := sync_branch self branch in
  let fetch := ["fetch"; "origin"] in
  let lookup := ["rev-parse"; "origin/" ++ b] in
  let pull := ["pull"; "origin"; b] in
  let push := ["push"; "-u"; "origin"; b] in
  let t1 := (t ++ [Print ("🔄 Syncing " ++ b ++ " with remote...")])%list in
  let t2 := (t1 ++ [Git fetch])%list in
  (branch = None -> b = current_branch self)
  /\ exists d,
       snd (sync_with_remote env self branch t) = (t ++ d)%list
       /\ (exists rest, git_commands d = fetch :: rest)
       /\ (git_ok env t1 fetch = true ->
           (git_ok env t2 lookup = true ->
            exists rest, git_commands d = fetch :: lookup :: pull :: rest)
           /\ (git_ok env t2 lookup = false ->
               git_commands d = [fetch; lookup; push])
           /\ (In pull (git_commands d) <-> git_ok env t2 lookup = true)).
Proof.
  intros b fetch lookup pull push t1 t2.
  split; [now intros -> |].
  unfold sync_with_remote.
  assert (Hb : (if truthy_opt branch
                then match branch with Some b0 => b0 | None => "" end
                else current_branch self) = b).
  { unfold b, sync_branch, truthy_opt. destruct branch as [b0 |]; [| reflexivity].
    now destruct (truthy b0). }
  rewrite Hb. clear Hb. clearbody b.
  monad_unfold.
  step_git.
  1: step_git; [step_git |..]; cbn [anything]; try step_git.
  all: subst t2 t1 fetch lookup pull push; use_git_ok;
    trace_norm; eexists; (split; [reflexivity |]);
    cbn [git_commands flat_map app]; (split; [eexists; reflexivity |]);
    intros Hfetch; try discriminate Hfetch.
  all: repeat split; try (intros H; discriminate H);
    try (intros _; eexists; reflexivity); try reflexivity;
    try (intros _; cbn [In]; tauto).
  all: intros H; cbn [In] in H;
    repeat (destruct H as [H | H]; [discriminate H |]); contradiction.
Qed.

(** The two fixtures of the specification: the remote branch present, and
    the remote branch absent. *)
Lemma sync_fetches_then_pulls_or_pushes_witness :
  (exists rest,
      git_commands (snd (sync_with_remote quiet on_main None []))
      = ["fetch"; "origin"] :: ["rev-parse"; "origin/main"]
        :: ["pull"; "origin"; "main"] :: rest)
  /\ git_commands (snd (sync_with_remote no_remote_topic on_main (Some "topic") []))
     = [ ["fetch"; "origin"]; ["rev-parse"; "origin/topic"];
         ["push"; "-u"; "origin"; "topic"] ].
Proof.
  split.
  - destruct (sync_fetches_then_pulls_or_pushes quiet on_main None [])
      as (_ & d & Hd & _ & H).
    rewrite Hd. cbn [app]. apply H; reflexivity.
  - destruct (sync_fetches_then_pulls_or_pushes no_remote_topic on_main
                (Some "topic") [])
      as (_ & d & Hd & _ & H).
    rewrite Hd. cbn [app]. apply H; reflexivity.
Defined.

(** When the remote branch exists and the pull fails, the handler of the
    look-up runs all the same: the script says the remote branch does not
    exist and pushes. *)
Example sync_after_failed_pull :
  git_commands (snd (sync_with_remote pull_conflict on_main None []))
  = [ ["fetch"; "origin"]; ["rev-parse"; "origin/main"];
      ["pull"; "origin"; "main"]; ["push"; "-u"; "origin"; "main"] ]
  /\ In "⚠️  Remote branch origin/main doesn't exist"
       (printed (snd (sync_with_remote pull_conflict on_main None []))).
Proof. split; [reflexivity | cbn; tauto]. Qed.

(** ** Cleaning merged branches *)

Section Cleanup.

Variable env : Env.

Lemma git_commands_prints (f : string -> string) (l : list string) :
  git_commands (map (fun b => Print (f b)) l) = [].
Proof. induction l as [| b l IH]; [reflexivity | exact IH]. Qed.

(** A loop whose body always returns after one [git] command issues one
    command for each element, in order, and returns. *)
Lemma for_each_one_command (body : string -> M unit) (command : string -> list string) :
  (forall b t, exists d,
      body b t = (Return tt, (t ++ d)%list) /\ git_commands d = [command b]) ->
  forall l t, exists d,
    for_each l body t = (Return tt, (t ++ d)%list)
    /\ git_commands d = map command l.
Proof.
  intros Hbody l. induction l as [| b l IH]; intros t; cbn [for_each map].
  - exists []. unfold ret. now rewrite app_nil_r.
  - unfold bind. destruct (Hbody b t) as (d1 & -> & H1).
    destruct (IH (t ++ d1)%list) as (d2 & -> & H2).
    exists (d1 ++ d2)%list. split; [now trace_norm |].
    now rewrite git_commands_app, H1, H2.
Qed.

(** A guarded deletion returns after its one command, whatever the command
    answers. *)
Lemma guarded_deletion (command : list string) (done failed : string) (t : trace) :
  exists d,
    try_except
      (_run_git_command env command;; print done)
      anything
      (fun _ => print failed) t
    = (Return tt, (t ++ d)%list)
    /\ git_commands d = [command].
Proof.
  monad_unfold.
  step_git; cbn [anything]; trace_norm; eexists; split; reflexivity.
Qed.

(** C5.  The cleanup run from the command line is a dry run unless
    [--no-dry-run] is given.  A dry run issues the listing command
    [git branch --merged main] and no other [git] command at all.  With the
    dry run disabled and the listing successful, the cleanup issues after
    the listing one [branch -d] for each listed branch and then one
    [push origin --delete] for each listed branch, in the order of the
    list, whatever these commands answer, and returns normally. *)
Theorem cleanup_deletion_attempts (t : trace) :
  (forall self flag,
      dispatch env self (Cleanup flag false) = clean_merged_branches env true)
  /\ (exists d,
         snd (clean_merged_branches env true t) = (t ++ d)%list
         /\ git_commands d = [list_merged])
  /\ (forall out err,
         run_git env (t ++ [Print cleaning])%list list_merged = Completed 0 out err ->
         exists d,
           clean_merged_branches env false t = (Return tt, (t ++ d)%list)
           /\ git_commands d
              = (list_merged :: map delete_local (merged_branches_of out)
                 ++ map delete_remote (merged_branches_of out))%list).
Proof.
  split; [reflexivity |]. split.
  - unfold clean_merged_branches. monad_unfold.
    step_git.
    1: destruct (merged_branches_of out) as [| b l] eqn:Hl; cbv beta iota;
       [| rewrite (print_each_of _ (fun branch => "  - " ++ branch))
            by reflexivity; cbv beta iota ].
    all: trace_norm; eexists; (split; [reflexivity |]);
      cbn [git_commands flat_map app]; try reflexivity.
    match goal with
    | |- context [flat_map ?f ?x] => change (flat_map f x) with (git_commands x)
    end.
    now rewrite git_commands_app, git_commands_prints.
  - intros out err Hq.
    unfold clean_merged_branches. monad_unfold.
    destruct (run_git_command_cases env list_merged (t ++ [Print cleaning])%list)
      as [(out' & err' & Hq' & Hrun) | [(rc & out' & err' & Hrc & Hq' & _) | (msg & Hq' & _)]];
      rewrite Hq in Hq'; inversion Hq'; subst; [| now elim Hrc].
    unfold list_merged, cleaning in Hrun. rewrite Hrun. cbv beta iota.
    destruct (merged_branches_of out') as [| b l] eqn:Hl.
    + trace_norm. eexists. split; reflexivity.
    + rewrite (print_each_of _ (fun branch => "  - " ++ branch)) by reflexivity.
      cbv beta iota.
      match goal with
      | |- context [for_each (b :: l) ?body ?t'] =>
          destruct (for_each_one_command body delete_local
                      ltac:(intros; apply guarded_deletion) (b :: l) t')
            as (d1 & -> & Hc1)
      end.
      match goal with
      | |- context [for_each (b :: l) ?body ?t'] =>
          destruct (for_each_one_command body delete_remote
                      ltac:(intros; apply guarded_deletion) (b :: l) t')
            as (d2 & -> & Hc2)
      end.
      exists ([Print "🧹 Cleaning up merged branches..."]
              ++ [Git ["branch"; "--merged"; "main"]]
              ++ [Print ("Found " ++ Py.str_of_nat (length (b :: l))
                         ++ " merged branches:")]
              ++ map (fun b0 => Print ("  - " ++ b0)) (b :: l)
              ++ d1 ++ d2)%list.
      split.
      * now repeat rewrite <- app_assoc.
      * rewrite !git_commands_app, git_commands_prints, Hc1, Hc2. reflexivity.
Qed.

End Cleanup.

(** Three merged branches, the first of which cannot be deleted locally:
    all six deletions are attempted. *)
Lemma cleanup_deletion_attempts_witness :
  git_commands (snd (clean_merged_branches three_merged true [])) = [list_merged]
  /\ exists d,
       clean_merged_branches three_merged false [] = (Return tt, d)
       /\ git_commands d
          = [ list_merged;
              delete_local "fix-1"; delete_local "fix-2"; delete_local "topic";
              delete_remote "fix-1"; delete_remote "fix-2"; delete_remote "topic" ].
Proof.
  destruct (cleanup_deletion_attempts three_merged []) as (_ & (d & Hd & Hdry) & Hrun).
  split.
  - rewrite Hd. exact Hdry.
  - destruct (Hrun ("  fix-1" ++ Py.nl ++ "  fix-2" ++ Py.nl ++ "* main" ++ Py.nl
                    ++ "  topic" ++ Py.nl) "" eq_refl) as (d' & Hd' & Hc).
    exists d'. split; [exact Hd' | exact Hc].
Defined.

(** ** The health check *)

(** C1.  In a clean working tree with nothing to push that tracks one file
    of 20 MiB, the health check records the large file as an issue and in
    the metrics, and returns the report with status [healthy]: the part
    that finds large files never sets the status, unlike the two parts
    before it. *)
Theorem large_file_leaves_status_healthy :
  fst (repository_health_check clean_with_large_file [])
  = Return
      {| status := "healthy";
         issues := ["1 large files detected"];
         recommendations := ["Consider using Git LFS for large files"];
         metrics := [ ("unpushed_commits", IntMetric 0);
                      ("days_since_last_commit", IntMetric 2);
                      ("large_files", FilesMetric [("big.bin", 20971520%Z)]) ] |}.
Proof. reflexivity. Qed.

(** On the output that [git ls-files -s] really prints there is no fourth
    field before the tab: the scan raises [IndexError] at the first line,
    the part is abandoned and the report stays as it was. *)
Lemma large_file_scan_on_git_output (report : health_report) (t : trace) :
  check_large_files (scripted [(["ls-files"; "-s"], gives ls_files_of_git)] (inl "1") 0)
    report t
  = (Return report, (t ++ [Git ["ls-files"; "-s"]])%list).
Proof. reflexivity. Qed.

Section Health.

Variable env : Env.

Lemma print_report_returns (r : health_report) (t : trace) :
  exists d, print_report r t = (Return tt, (t ++ d)%list).
Proof.
  unfold print_report. monad_unfold.
  destruct (issues r) as [| i li]; destruct (recommendations r) as [| c lc];
    destruct (metrics r) as [| m lm];
    rewrite ?(print_each_of _ (fun issue => "   - " ++ issue)) by reflexivity;
    cbv beta iota;
    rewrite ?(print_each_of _ (fun issue => "   - " ++ issue)) by reflexivity;
    cbv beta iota;
    rewrite ?(print_each_of print_metric
                (fun kv => match kv with
                           | (key, FilesMetric value) =>
                               "   - " ++ key ++ ": "
                               ++ Py.str_of_nat (length value) ++ " files"
                           | (key, IntMetric value) =>
                               "   - " ++ key ++ ": " ++ Py.str_of_Z value
                           end))
      by (intros [key [n | files]] t0; reflexivity);
    repeat rewrite <- app_assoc; eexists; reflexivity.
Qed.

Lemma split_not_empty (sep : ascii) (s : string) : Py.split sep s <> [].
Proof.
  induction s as [| c s IH]; cbn [Py.split]; [discriminate |].
  destruct (Ascii.eqb c sep); [discriminate |].
  destruct (Py.split sep s); [contradiction | discriminate].
Qed.

(** The part for unpushed commits always returns; it sets the status to
    [warning] exactly when the log command succeeds with some output. *)
Lemma check_unpushed_status (r : health_report) (t : trace) :
  exists r' d,
    check_unpushed env r t = (Return r', (t ++ d)%list)
    /\ match run_git env t log_unpushed with
       | Completed 0 out _ =>
           if truthy (Py.strip out) then status r' = "warning"
           else status r' = status r
       | _ => status r' = status r
       end.
Proof.
  unfold check_unpushed. monad_unfold.
  destruct (run_git_command_cases env log_unpushed t)
    as [(out & err & Hq & Hrun) | [(rc & out & err & Hrc & Hq & Hrun) | (msg & Hq & Hrun)]];
    unfold log_unpushed in Hrun; rewrite Hrun, Hq; cbv beta iota; cbn [anything].
  - destruct (truthy (Py.strip out)).
    + destruct (Py.split Py.LF (Py.strip out)) as [| f fs] eqn:Hs;
        [now elim (split_not_empty Py.LF (Py.strip out)) |].
      cbn [length Nat.ltb Nat.leb]. eexists. eexists. split; reflexivity.
    + cbn [Nat.ltb Nat.leb]. eexists. eexists. split; reflexivity.
  - destruct rc; [now elim Hrc | |]; eexists; eexists; split; reflexivity.
  - eexists. eexists. split; reflexivity.
Qed.

Lemma check_branch_age_status (r : health_report) (t : trace) :
  exists r' d,
    check_branch_age env r t = (Return r', (t ++ d)%list) /\ status r' = status r.
Proof.
  unfold check_branch_age. monad_unfold.
  step_git; cbn [anything].
  1: match goal with
     | |- context [days_since env ?t' ?s] => destruct (days_since env t' s) as [msg | days]
     end;
     cbv beta iota; [| destruct (30 <? days)%Z].
  all: trace_norm; eexists; eexists; split; [reflexivity | reflexivity].
Qed.

(** The scan of the listing is a computation: it leaves no trace. *)
Lemma scan_large_files_trace (lines : list string) (acc : list (string * Z)) (t : trace) :
  snd (scan_large_files lines acc t) = t.
Proof.
  revert acc. induction lines as [| line rest IH]; intros acc; cbn [scan_large_files].
  - reflexivity.
  - destruct (truthy line); [| apply IH].
    destruct (2 <=? length (Py.split Py.TAB line))%nat; [| apply IH].
    unfold bind, index, int_of.
    destruct (nth_error _ 3) as [field |]; [| reflexivity].
    cbn [ret fst snd].
    destruct (Py.int field) as [size |]; [| reflexivity].
    cbn [ret fst snd].
    destruct (10 * 1024 * 1024 <? size)%Z; apply IH.
Qed.

Lemma check_large_files_status (r : health_report) (t : trace) :
  exists r' d,
    check_large_files env r t = (Return r', (t ++ d)%list) /\ status r' = status r.
Proof.
  unfold check_large_files. monad_unfold.
  step_git; cbn [anything].
  1: match goal with
     | |- context [scan_large_files ?l ?acc ?t'] =>
         pose proof (scan_large_files_trace l acc t') as Hscan;
         destruct (scan_large_files l acc t') as [[[| f fs] | e] t''];
         cbn [snd] in Hscan; subst t''
     end.
  all: trace_norm; eexists; eexists; split; [reflexivity | reflexivity].
Qed.

(** X22.  What decides the status: when the status command succeeds the
    health check returns a report, whose status is [warning] exactly when the
    status command printed something or the log command printed something,
    and [healthy] otherwise.  Large files have no part in it. *)
Lemma health_status_decided (t : trace) (out err : string) :
  let t1 := (t ++ [Print health_banner])%list in
  let t2 := (t1 ++ [Git status_porcelain])%list in
  run_git env t1 status_porcelain = Completed 0 out err ->
  exists r,
    fst (repository_health_check env t) = Return r
    /\ (status r = "warning" \/ status r = "healthy")
    /\ (status r = "warning"
        <-> truthy (Py.strip out) = true \/ unpushed_commits_present env t2 = true).
Proof.
  intros t1 t2 Hq.
  unfold repository_health_check, check_uncommitted. monad_unfold.
  destruct (run_git_command_cases env status_porcelain t1)
    as [(out' & err' & Hq' & Hrun) | [(rc & out' & err' & Hrc & Hq' & _) | (msg & Hq' & _)]];
    rewrite Hq in Hq'; inversion Hq'; subst out' err'; [| now elim Hrc].
  unfold status_porcelain, t1, health_banner in Hrun. rewrite Hrun. cbv beta iota.
  match goal with
  | |- context [check_unpushed env ?r ?t'] =>
      destruct (check_unpushed_status r t') as (r2 & d2 & -> & H2)
  end.
  destruct (check_branch_age_status r2 (t2 ++ d2)%list) as (r3 & d3 & H3' & H3).
  unfold t2, t1, status_porcelain, health_banner in H3'. rewrite H3'. clear H3'.
  match goal with
  | |- context [check_large_files env r3 ?t'] =>
      destruct (check_large_files_status r3 t') as (r4 & d4 & -> & H4)
  end.
  match goal with
  | |- context [print_report r4 ?t'] =>
      destruct (print_report_returns r4 t') as (d5 & ->)
  end.
  exists r4. split; [reflexivity |].
  rewrite H4, H3.
  unfold unpushed_commits_present. subst t2 t1. unfold health_banner.
  destruct (run_git env _ log_unpushed) as [[| p | p] out2 err2 | msg];
    try destruct (truthy (Py.strip out2));
    destruct (truthy (Py.strip out)); rewrite H2; cbn [status set_status add_issue];
    (split; [tauto |]); split; intros H; try tauto; try discriminate H;
    destruct H as [H | H]; discriminate H.
Qed.

End Health.

(** A clean working tree with two commits that were not pushed. *)
Lemma health_status_decided_witness :
  exists r,
    fst (repository_health_check two_unpushed []) = Return r
    /\ status r = "warning".
Proof.
  destruct (health_status_decided two_unpushed [] "" "" eq_refl) as (r & Hr & _ & Hw).
  exists r. split; [exact Hr |]. apply Hw. right. reflexivity.
Defined.

(** ** The candidates of the cleanup *)

Lemma split_line (a s : string) :
  Py.has_char Py.LF a = false ->
  Py.split Py.LF (a ++ Py.nl ++ s) = a :: Py.split Py.LF s.
Proof.
  induction a as [| c a IH]; intros Ha.
  - reflexivity.
  - change (String c a ++ Py.nl ++ s) with (String c (a ++ Py.nl ++ s)).
    unfold Py.has_char in Ha. cbn [list_ascii_of_string existsb] in Ha.
    apply orb_false_elim in Ha. destruct Ha as [Hc Ha].
    cbn [Py.split]. rewrite Ascii.eqb_sym, Hc.
    now rewrite (IH Ha).
Qed.

Lemma branch_line_no_line_feed (b : bool * string) :
  Py.has_char Py.LF (snd b) = false -> Py.has_char Py.LF (branch_line b) = false.
Proof. destruct b as [[|] n]; intros H; exact H. Qed.

Lemma split_branch_listing (bs : list (bool * string)) :
  Forall (fun b => branch_name_ok (snd b) = true) bs ->
  Py.split Py.LF (branch_listing bs) = (map branch_line bs ++ [""])%list.
Proof.
  induction 1 as [| b bs Hb _ IH]; [reflexivity |].
  cbn [branch_listing map app].
  rewrite split_line, IH; [reflexivity |].
  apply branch_line_no_line_feed.
  unfold branch_name_ok in Hb.
  repeat (apply andb_prop in Hb; destruct Hb as [Hb ?]).
  now apply negb_true_iff.
Qed.

Lemma rstrip_star (r : string) : Py.startswith "*" (Py.rstrip (String "*" r)) = true.
Proof.
  cbn [Py.rstrip]. destruct (Py.rstrip r); reflexivity.
Qed.

Lemma kept_line_current (n : string) : kept_line (branch_line (true, n)) = false.
Proof.
  unfold kept_line, branch_line. cbn [fst snd].
  change ("* " ++ n) with (String "*" (String " " n)).
  unfold Py.strip. cbn [Py.lstrip]. change (Py.isspace "*") with false. cbv iota.
  rewrite rstrip_star. cbn [negb]. now rewrite andb_false_r.
Qed.

Lemma kept_line_other (n : string) :
  branch_name_ok n = true ->
  Py.strip (branch_line (false, n)) = n
  /\ kept_line (branch_line (false, n)) = negb (Py.contains "main" n).
Proof.
  intros Hn. unfold branch_name_ok in Hn.
  repeat (apply andb_prop in Hn; destruct Hn as [Hn ?]).
  assert (Hs : Py.strip (branch_line (false, n)) = n).
  { unfold branch_line. cbn [fst snd].
    change ("  " ++ n) with (String " " (String " " n)).
    unfold Py.strip. cbn [Py.lstrip]. change (Py.isspace " ") with true. cbv iota.
    now apply String.eqb_eq. }
  split; [exact Hs |].
  unfold kept_line. rewrite Hs, Hn.
  match goal with H : negb (Py.startswith _ _) = true |- _ => rewrite H end.
  unfold branch_line. cbn [fst snd andb].
  change ("  " ++ n) with (String " " (String " " n)).
  reflexivity.
Qed.

Lemma kept_lines_of_listing (bs : list (bool * string)) :
  Forall (fun b => branch_name_ok (snd b) = true) bs ->
  map Py.strip (filter kept_line (map branch_line bs)) = candidates_kept bs.
Proof.
  induction 1 as [| [cur n] bs Hb _ IH]; [reflexivity |].
  cbn [map filter]. unfold candidates_kept. cbn [filter fst snd].
  destruct cur.
  - rewrite kept_line_current. cbn [negb andb]. exact IH.
  - destruct (kept_line_other n Hb) as [Hs ->]. cbn [negb andb].
    destruct (Py.contains "main" n); cbn [negb map snd].
    + exact IH.
    + rewrite Hs. f_equal. exact IH.
Qed.




(** ** Failures of commands *)

Section Fatal.

Variable env : Env.

Lemma git_failed_no_command (pre d : trace) :
  git_commands d = [] -> git_failed env pre d = false.
Proof.
  revert pre. induction d as [| ev d IH]; intros pre H; [reflexivity |].
  destruct ev; cbn [git_commands flat_map app] in H; try discriminate H;
    cbn [git_failed orb]; now apply IH.
Qed.

Lemma error_printed_app (d1 d2 : trace) :
  error_printed (d1 ++ d2)%list = error_printed d1 || error_printed d2.
Proof. apply existsb_app. Qed.

Lemma prefix_append (p s : string) : String.prefix p (p ++ s) = true.
Proof.
  induction p as [| c p IH]; [now destruct s |].
  change (String c p ++ s) with (String c (p ++ s)). cbn [String.prefix].
  destruct (ascii_dec c c) as [_ | N]; [exact IH | now elim N].
Qed.

Lemma quiet_ret {A} (a : A) : quiet_run (ret a).
Proof. intros t. exists []. split; [unfold ret; cbn; now rewrite app_nil_r | reflexivity]. Qed.

Lemma quiet_raise {A} (e : exn) : quiet_run (@raise A e).
Proof. intros t. exists []. split; [unfold raise; cbn; now rewrite app_nil_r | reflexivity]. Qed.

Lemma quiet_print (line : string) : quiet_run (print line).
Proof. intros t. exists [Print line]. split; reflexivity. Qed.

Lemma quiet_bind {A B} (m : M A) (f : A -> M B) :
  quiet_run m -> (forall a, quiet_run (f a)) -> quiet_run (bind m f).
Proof.
  intros Hm Hf t. unfold bind.
  destruct (Hm t) as (d1 & H1 & G1).
  destruct (m t) as [[a | e] t']; cbn [snd] in H1; subst t'.
  - destruct (Hf a (t ++ d1)%list) as (d2 & H2 & G2).
    exists (d1 ++ d2)%list. rewrite H2, app_assoc, git_commands_app, G1, G2.
    split; reflexivity.
  - exists d1. split; [reflexivity | exact G1].
Qed.

Lemma quiet_try_except {A} (m : M A) (catches : exn -> bool) (h : exn -> M A) :
  quiet_run m -> (forall e, quiet_run (h e)) -> quiet_run (try_except m catches h).
Proof.
  intros Hm Hh t. unfold try_except.
  destruct (Hm t) as (d1 & H1 & G1).
  destruct (m t) as [[a | e] t']; cbn [snd] in H1; subst t'.
  - exists d1. split; [reflexivity | exact G1].
  - destruct (catches e).
    + destruct (Hh e (t ++ d1)%list) as (d2 & H2 & G2).
      exists (d1 ++ d2)%list. rewrite H2, app_assoc, git_commands_app, G1, G2.
      split; reflexivity.
    + exists d1. split; [reflexivity | exact G1].
Qed.

Lemma fatal_of_quiet {A} (m : M A) : quiet_run m -> fatal env m.
Proof.
  intros Hm t. destruct (Hm t) as (d & Hd & Gd).
  exists d. split; [exact Hd |].
  rewrite (git_failed_no_command t d Gd). discriminate.
Qed.

Lemma fatal_bind {A B} (m : M A) (f : A -> M B) :
  fatal env m -> (forall a, fatal env (f a)) -> fatal env (bind m f).
Proof.
  intros Hm Hf t. unfold bind.
  destruct (Hm t) as (d1 & H1 & F1).
  destruct (m t) as [[a | e] t']; cbn [snd fst] in *; subst t'.
  - destruct (Hf a (t ++ d1)%list) as (d2 & H2 & F2).
    exists (d1 ++ d2)%list. split; [now rewrite H2, app_assoc |].
    rewrite git_failed_app, error_printed_app. intros Hfail.
    apply orb_true_iff in Hfail. destruct Hfail as [Hfail | Hfail].
    + destruct (F1 Hfail) as [[E _] | [msg E]]; discriminate E.
    + destruct (F2 Hfail) as [[E P] | [msg E]].
      * left. split; [exact E |]. rewrite P. apply orb_true_r.
      * right. now exists msg.
  - exists d1. split; [reflexivity |].
    intros Hfail. destruct (F1 Hfail) as [[E P] | [msg E]]; inversion E.
    + left. now split.
    + right. now exists msg.
Qed.

Lemma fatal_run_git_command (command : list string) :
  fatal env (_run_git_command env command).
Proof.
  intros t. step_git; read_trace; intros H; try discriminate H.
  - left. split; [reflexivity |].
    unfold error_printed. cbn [existsb]. unfold is_error_line.
    now rewrite prefix_append.
  - right. now exists msg.
Qed.

Lemma fatal_for_each {A} (l : list A) (body : A -> M unit) :
  (forall a, fatal env (body a)) -> fatal env (for_each l body).
Proof.
  intros Hbody. induction l as [| a l IH]; cbn [for_each].
  - apply fatal_of_quiet, quiet_ret.
  - apply fatal_bind; [apply Hbody | intros _; exact IH].
Qed.

Lemma quiet_ask {A} (q : trace -> A) (ev : event) :
  git_commands [ev] = [] -> quiet_run (ask q ev).
Proof. intros H t. exists [ev]. split; [reflexivity | exact H]. Qed.

(** The proof that a computation is quiet or fatal follows its text. *)
Ltac flow_with leaf :=
  repeat first
    [ progress cbv beta zeta
    | leaf
    | apply fatal_run_git_command
    | apply fatal_bind; [| intros ?]
    | apply fatal_for_each; intros ?
    | apply quiet_bind; [| intros ?]
    | apply quiet_try_except; [| intros ?]
    | apply quiet_print
    | apply quiet_ret
    | apply quiet_raise
    | apply quiet_ask; reflexivity
    | match goal with
      | |- quiet_run (match ?x with _ => _ end) => destruct x
      | |- fatal _ (match ?x with _ => _ end) => destruct x
      | |- fatal _ (print _) => apply fatal_of_quiet
      | |- fatal _ (ret _) => apply fatal_of_quiet
      end ].

Ltac flow := flow_with fail.

Lemma quiet_create_pull_request (self : automator) (source target title : string) :
  quiet_run (_create_pull_request env self source target title).
Proof. unfold _create_pull_request. flow. Qed.

Lemma quiet_update_version_file (version version_file : string) :
  quiet_run (update_version_file env version version_file).
Proof. unfold update_version_file, _update_package_json_version, sys_exit. flow. Qed.

Lemma fatal_create_feature_branch (name base : string) :
  fatal env (create_feature_branch env name base).
Proof. unfold create_feature_branch. flow. Qed.

Lemma fatal_create_hotfix_branch (name base : string) :
  fatal env (create_hotfix_branch env name base).
Proof. unfold create_hotfix_branch. flow. Qed.

Lemma fatal_finish_feature (self : automator) (name target : string) :
  fatal env (finish_feature env self name target).
Proof.
  unfold finish_feature.
  flow_with ltac:(apply fatal_of_quiet, quiet_create_pull_request).
Qed.

Lemma fatal_create_release_branch (version base : string) :
  fatal env (create_release_branch env version base).
Proof.
  unfold create_release_branch.
  flow_with ltac:(apply fatal_of_quiet, quiet_update_version_file).
Qed.

Lemma fatal_branch_flow (self : automator) (c : command) :
  branch_flow c = true -> fatal env (dispatch env self c).
Proof.
  destruct c; intros H; try discriminate H; cbn [dispatch].
  - apply fatal_create_feature_branch.
  - apply fatal_finish_feature.
  - apply fatal_create_hotfix_branch.
  - apply fatal_create_release_branch.
Qed.

End Fatal.

(** [finish_feature] returns when its two [git] commands succeed, whatever
    becomes of the pull request. *)
Lemma finish_feature_returns (env : Env) (self : automator) (name target : string)
    (t : trace) :
  exists d,
    snd (finish_feature env self name target t) = (t ++ d)%list
    /\ (git_failed env t d = false ->
        fst (finish_feature env self name target t) = Return tt).
Proof.
  unfold finish_feature. monad_unfold.
  step_git; [step_git |..].
  1: destruct (truthy_opt (repository_name self));
       [ match goal with
         | |- context [_create_pull_request ?e ?s ?a ?b ?c ?t] =>
             destruct (create_pull_request_run e s a b c t) as [lines ->]
         end |].
  all: read_trace; intros H; try discriminate H; reflexivity.
Qed.




(** ** The validation of the version, compared with the words *)

Lemma append_cons (c : ascii) (s r : string) : String c s ++ r = String c (s ++ r).
Proof. reflexivity. Qed.

Lemma append_assoc (a b c : string) : (a ++ b) ++ c = a ++ b ++ c.
Proof.
  induction a as [| x a IH]; [reflexivity |].
  now rewrite !append_cons, IH.
Qed.

Lemma append_empty_r (a : string) : a ++ "" = a.
Proof. induction a as [| x a IH]; [reflexivity | now rewrite append_cons, IH]. Qed.

(** What [\d+] consumes is a decimal number. *)
Lemma skip_digits_split (s : string) :
  exists ds, s = ds ++ skip_digits s /\ all_digits ds = true.
Proof.
  induction s as [| c s (ds & Hs & Hd)].
  - now exists "".
  - cbn [skip_digits]. destruct (Py.isdigit c) eqn:Hc.
    + exists (String c ds). rewrite append_cons, <- Hs. split; [reflexivity |].
      unfold all_digits. cbn [list_ascii_of_string forallb]. now rewrite Hc.
    + now exists "".
Qed.

Lemma digits1_some (s r : string) :
  digits1 s = Some r -> exists ds, s = ds ++ r /\ decimal ds = true.
Proof.
  destruct s as [| c s]; [discriminate |].
  cbn [digits1]. destruct (Py.isdigit c) eqn:Hc; [| discriminate].
  intros [= <-]. destruct (skip_digits_split s) as (ds & Hs & Hd).
  exists (String c ds). rewrite append_cons, <- Hs. split; [reflexivity |].
  unfold decimal, all_digits. cbn [truthy String.eqb negb andb list_ascii_of_string forallb].
  now rewrite Hc.
Qed.

Lemma skip_digits_app (ds r : string) :
  all_digits ds = true -> starts_without_digit r -> skip_digits (ds ++ r) = r.
Proof.
  intros Hd Hr. induction ds as [| c ds IH].
  - destruct r as [| c r]; [reflexivity |].
    change ("" ++ String c r) with (String c r).
    cbn [skip_digits]. unfold starts_without_digit in Hr. now rewrite Hr.
  - unfold all_digits in Hd. cbn [list_ascii_of_string forallb] in Hd.
    apply andb_prop in Hd. destruct Hd as [Hc Hd].
    rewrite append_cons. cbn [skip_digits]. rewrite Hc. now apply IH.
Qed.

Lemma digits1_app (ds r : string) :
  decimal ds = true -> starts_without_digit r -> digits1 (ds ++ r) = Some r.
Proof.
  unfold decimal. intros Hd Hr. apply andb_prop in Hd. destruct Hd as [Hn Hd].
  destruct ds as [| c ds]; [discriminate Hn |].
  unfold all_digits in Hd. cbn [list_ascii_of_string forallb] in Hd.
  apply andb_prop in Hd. destruct Hd as [Hc Hd].
  rewrite append_cons. cbn [digits1]. rewrite Hc.
  f_equal. now apply skip_digits_app.
Qed.

Lemma dot_some (s r : string) : dot s = Some r -> s = String "." r.
Proof.
  destruct s as [| c s]; [discriminate |].
  unfold dot. destruct (Ascii.eqb_spec c ".") as [-> | N].
  - now intros [= ->].
  - destruct c as [[] [] [] [] [] [] [] []]; try discriminate; now elim N.
Qed.

(** Splitting at the dots. *)
Lemma split_digits_dot (ds r : string) :
  all_digits ds = true ->
  Py.split "." (ds ++ String "." r) = ds :: Py.split "." r.
Proof.
  intros Hd. induction ds as [| c ds IH]; [reflexivity |].
  unfold all_digits in Hd. cbn [list_ascii_of_string forallb] in Hd.
  apply andb_prop in Hd. destruct Hd as [Hc Hd].
  rewrite append_cons. cbn [Py.split].
  destruct (Ascii.eqb_spec c ".") as [-> | _]; [discriminate Hc |].
  now rewrite (IH Hd).
Qed.

Lemma split_digits (ds : string) : all_digits ds = true -> Py.split "." ds = [ds].
Proof.
  intros Hd. induction ds as [| c ds IH]; [reflexivity |].
  unfold all_digits in Hd. cbn [list_ascii_of_string forallb] in Hd.
  apply andb_prop in Hd. destruct Hd as [Hc Hd].
  cbn [Py.split].
  destruct (Ascii.eqb_spec c ".") as [-> | _]; [discriminate Hc |].
  now rewrite (IH Hd).
Qed.

Lemma join_split (sep : ascii) (s : string) :
  String.concat (String sep "") (Py.split sep s) = s.
Proof.
  induction s as [| c s IH]; [reflexivity |].
  cbn [Py.split]. destruct (Ascii.eqb_spec c sep) as [-> | _].
  - cbn [String.concat]. destruct (Py.split sep s) eqn:Hs.
    + now elim (split_not_empty sep s).
    + rewrite IH. reflexivity.
  - destruct (Py.split sep s) as [| f fs] eqn:Hs.
    + now elim (split_not_empty sep s).
    + cbn [String.concat] in IH |- *. destruct fs.
      * now rewrite IH.
      * now rewrite append_cons, IH.
Qed.

Lemma three_integers_parts (d1 d2 d3 : string) :
  decimal d1 = true -> decimal d2 = true -> decimal d3 = true ->
  three_integers (d1 ++ String "." (d2 ++ String "." d3)) = true.
Proof.
  intros H1 H2 H3. unfold three_integers.
  pose proof H1 as A1. pose proof H2 as A2. pose proof H3 as A3.
  unfold decimal in A1, A2, A3.
  apply andb_prop in A1, A2, A3. destruct A1 as [_ A1], A2 as [_ A2], A3 as [_ A3].
  rewrite (split_digits_dot d1 _ A1), (split_digits_dot d2 _ A2), (split_digits d3 A3).
  now rewrite H1, H2, H3.
Qed.

Lemma three_integers_inv (w : string) :
  three_integers w = true ->
  exists d1 d2 d3,
    w = d1 ++ String "." (d2 ++ String "." d3)
    /\ decimal d1 = true /\ decimal d2 = true /\ decimal d3 = true.
Proof.
  unfold three_integers. intros H.
  pose proof (join_split "." w) as J.
  destruct (Py.split "." w) as [| a [| b [| c [| x l]]]]; try discriminate H.
  apply andb_prop in H. destruct H as [H H3].
  apply andb_prop in H. destruct H as [H1 H2].
  exists a, b, c. cbn [String.concat] in J.
  repeat split; trivial. now rewrite <- J.
Qed.

Lemma version_re_match_parts (d1 d2 d3 tail : string) :
  decimal d1 = true -> decimal d2 = true -> decimal d3 = true ->
  starts_without_digit tail ->
  version_re_match (d1 ++ String "." (d2 ++ String "." (d3 ++ tail))) = at_dollar tail.
Proof.
  intros H1 H2 H3 Ht. unfold version_re_match.
  rewrite (digits1_app d1 _ H1) by reflexivity. cbn [opt_bind dot].
  rewrite (digits1_app d2 _ H2) by reflexivity. cbn [opt_bind dot].
  now rewrite (digits1_app d3 _ H3 Ht).
Qed.


(** ** What every operation keeps *)

Section Tame.

Variable env : Env.
Variable P : list string -> bool.

Lemma tame_ret {A} (a : A) : tame P (ret a).
Proof.
  intros t. exists []. unfold ret. cbn. now rewrite app_nil_r.
Qed.

Lemma tame_failure {A} (msg : string) : tame P (@raise A (Failure msg)).
Proof.
  intros t. exists []. unfold raise. cbn. now rewrite app_nil_r.
Qed.

Lemma tame_print (line : string) : tame P (print line).
Proof. intros t. exists [Print line]. now cbn. Qed.

Lemma tame_ask {A} (q : trace -> A) (ev : event) :
  git_commands [ev] = [] -> tame P (ask q ev).
Proof.
  intros H t. exists [ev]. unfold ask. cbn [fst snd]. rewrite H. now cbn.
Qed.

Lemma tame_emit (ev : event) : git_commands [ev] = [] -> tame P (emit ev).
Proof.
  intros H t. exists [ev]. unfold emit. cbn [fst snd]. rewrite H. now cbn.
Qed.

Lemma ends_well_app {A} (r : result A) (d1 d2 : trace) :
  ends_well r d2 -> ends_well r (d1 ++ d2)%list.
Proof.
  destruct r as [a | [code | rc cmd err | msg]]; cbn; trivial.
  intros [Hc Hp]. split; [exact Hc |].
  rewrite error_printed_app, Hp. apply orb_true_r.
Qed.

Lemma forallb_git_commands_app (d1 d2 : trace) :
  forallb P (git_commands d1) = true ->
  forallb P (git_commands d2) = true ->
  forallb P (git_commands (d1 ++ d2)%list) = true.
Proof.
  intros H1 H2. now rewrite git_commands_app, forallb_app, H1, H2.
Qed.

Lemma tame_bind {A B} (m : M A) (f : A -> M B) :
  tame P m -> (forall a, tame P (f a)) -> tame P (bind m f).
Proof.
  intros Hm Hf t. unfold bind.
  destruct (Hm t) as (d1 & H1 & G1 & E1).
  destruct (m t) as [[a | e] t']; cbn [snd fst] in *; subst t'.
  - destruct (Hf a (t ++ d1)%list) as (d2 & H2 & G2 & E2).
    exists (d1 ++ d2)%list. rewrite H2, app_assoc.
    split; [reflexivity |]. split.
    + now apply forallb_git_commands_app.
    + now apply ends_well_app.
  - exists d1. split; [reflexivity |]. split; [exact G1 |].
    destruct e as [code | rc cmd err | msg]; exact E1.
Qed.

Lemma tame_try_except {A} (m : M A) (catches : exn -> bool) (h : exn -> M A) :
  tame P m -> (forall e, tame P (h e)) -> tame P (try_except m catches h).
Proof.
  intros Hm Hh t. unfold try_except.
  destruct (Hm t) as (d1 & H1 & G1 & E1).
  destruct (m t) as [[a | e] t']; cbn [snd fst] in *; subst t'.
  - exists d1. now repeat split.
  - destruct (catches e).
    + destruct (Hh e (t ++ d1)%list) as (d2 & H2 & G2 & E2).
      exists (d1 ++ d2)%list. rewrite H2, app_assoc.
      split; [reflexivity |]. split.
      * now apply forallb_git_commands_app.
      * now apply ends_well_app.
    + exists d1. now repeat split.
Qed.

Lemma tame_for_each {A} (l : list A) (body : A -> M unit) :
  (forall a, tame P (body a)) -> tame P (for_each l body).
Proof.
  intros Hbody. induction l as [| a l IH]; cbn [for_each].
  - apply tame_ret.
  - apply tame_bind; [apply Hbody | intros _; exact IH].
Qed.

Lemma tame_run_git_command (command : list string) :
  P command = true -> tame P (_run_git_command env command).
Proof.
  intros HP t. step_git; trace_norm; eexists; (split; [reflexivity |]);
    cbn [git_commands flat_map app forallb fst]; rewrite HP; (split; [reflexivity |]);
    cbn [ends_well]; trivial.
  split; [reflexivity |].
  cbn [error_printed existsb]. unfold is_error_line. now rewrite prefix_append.
Qed.

Lemma tame_get_current_branch :
  P rev_parse_head = true -> tame P (_get_current_branch env).
Proof.
  intros HP t. unfold _get_current_branch, subprocess_run_git. monad_unfold.
  exists [Git rev_parse_head]. unfold rev_parse_head in *.
  cbn [git_commands flat_map app forallb]. rewrite HP.
  destruct (run_git env t _) as [rc out err | msg]; [destruct (rc =? 0)%Z |];
    cbn; now repeat split.
Qed.

(** The handler of [main]: an error line, then exit code 1. *)
Lemma tame_report_and_exit {A} (e : exn) :
  tame P (print ("❌ Error: " ++ str_of_exn e);; @sys_exit A 1).
Proof.
  intros t. monad_unfold. eexists. split; [reflexivity |].
  cbn [git_commands flat_map app forallb fst ends_well].
  repeat split.
  cbn [error_printed existsb]. unfold is_error_line.
  rewrite prefix_append. now rewrite !orb_true_r.
Qed.

End Tame.

(** The proof that a computation is tame follows its text; [side] shows
    that a command satisfies the predicate. *)
Ltac tame_flow_with side :=
  repeat first
    [ progress cbv beta zeta iota
    | apply tame_run_git_command; side
    | apply tame_get_current_branch; side
    | apply tame_report_and_exit
    | apply tame_bind; [| intros ?]
    | apply tame_try_except; [| intros ?]
    | apply tame_for_each; intros ?
    | apply tame_print
    | apply tame_ret
    | apply tame_failure
    | apply tame_ask; reflexivity
    | apply tame_emit; reflexivity
    | match goal with
      | |- tame _ (match ?x with _ => _ end) => destruct x
      end ].

Section TameOperations.

Variable env : Env.
Variable P : list string -> bool.

(** [P] holds of every command that deletes nothing. *)
Hypothesis P_keeps : forall argv, is_deletion argv = false -> P argv = true.

Ltac tame_flow := tame_flow_with ltac:(apply P_keeps; reflexivity).

Lemma tame_scan_large_files (lines : list string) (acc : list (string * Z)) :
  tame P (scan_large_files lines acc).
Proof.
  revert acc. induction lines as [| line rest IH]; intros acc; cbn [scan_large_files].
  - apply tame_ret.
  - unfold index, int_of. tame_flow; apply IH.
Qed.

Lemma tame_constructor (repo : option string) :
  tame P (GitWorkflowAutomator env repo).
Proof. unfold GitWorkflowAutomator. tame_flow. Qed.

Lemma tame_create_feature_branch (name base : string) :
  tame P (create_feature_branch env name base).
Proof. unfold create_feature_branch. tame_flow. Qed.

Lemma tame_create_hotfix_branch (name base : string) :
  tame P (create_hotfix_branch env name base).
Proof. unfold create_hotfix_branch. tame_flow. Qed.

Lemma tame_finish_feature (self : automator) (name target : string) :
  tame P (finish_feature env self name target).
Proof. unfold finish_feature, _create_pull_request. tame_flow. Qed.

Lemma tame_create_release_branch (version base : string) :
  tame P (create_release_branch env version base).
Proof.
  unfold create_release_branch, update_version_file, _update_package_json_version.
  tame_flow.
Qed.

Lemma tame_repository_health_check : tame P (repository_health_check env).
Proof.
  unfold repository_health_check, check_uncommitted, check_unpushed,
    check_branch_age, check_large_files, print_report, print_metric.
  tame_flow; apply tame_scan_large_files.
Qed.

Lemma tame_sync_with_remote (self : automator) (branch : option string) :
  tame P (sync_with_remote env self branch).
Proof. unfold sync_with_remote. tame_flow. Qed.

Lemma tame_dry_run : tame P (clean_merged_branches env true).
Proof. unfold clean_merged_branches. tame_flow. Qed.

End TameOperations.

Lemma tame_clean_merged_branches (env : Env) (dry_run : bool) :
  tame any_command (clean_merged_branches env dry_run).
Proof. unfold clean_merged_branches. tame_flow_with reflexivity. Qed.

Lemma keeps_branches_of_no_deletion (argv : list string) :
  is_deletion argv = false -> keeps_branches argv = true.
Proof. unfold keeps_branches. now intros ->. Qed.

Lemma tame_dispatch_any (env : Env) (self : automator) (c : command) :
  tame any_command (dispatch env self c).
Proof.
  assert (H : forall argv, is_deletion argv = false -> any_command argv = true)
    by reflexivity.
  destruct c; cbn [dispatch].
  - apply tame_ret.
  - now apply tame_create_feature_branch.
  - now apply tame_finish_feature.
  - apply tame_ret.
  - now apply tame_create_hotfix_branch.
  - now apply tame_create_release_branch.
  - apply tame_clean_merged_branches.
  - apply tame_bind; [now apply tame_repository_health_check | intros _; apply tame_ret].
  - now apply tame_sync_with_remote.
Qed.

Lemma tame_dispatch_keeps (env : Env) (self : automator) (c : command) :
  asks_for_deletion c = false -> tame keeps_branches (dispatch env self c).
Proof.
  pose proof keeps_branches_of_no_deletion as H.
  destruct c as [| | | | | | flag [|] | |]; intros Hc; try discriminate Hc;
    cbn [dispatch negb].
  - apply tame_ret.
  - now apply tame_create_feature_branch.
  - now apply tame_finish_feature.
  - apply tame_ret.
  - now apply tame_create_hotfix_branch.
  - now apply tame_create_release_branch.
  - now apply tame_dry_run.
  - apply tame_bind; [now apply tame_repository_health_check | intros _; apply tame_ret].
  - now apply tame_sync_with_remote.
Qed.

Lemma tame_main (env : Env) (P : list string -> bool) (a : args) :
  (forall argv, is_deletion argv = false -> P argv = true) ->
  (forall self, tame P (dispatch env self (cmd_of a))) ->
  tame P (main env a).
Proof.
  intros HP Hd. unfold main.
  assert (Hrun : tame P
            (automator <- GitWorkflowAutomator env (repository a);;
             try_except (dispatch env automator (cmd_of a)) is_Exception
               (fun e => print ("❌ Error: " ++ str_of_exn e);; sys_exit 1))).
  { apply tame_bind; [now apply tame_constructor |].
    intros self. apply tame_try_except; [apply Hd |].
    intros e. apply tame_report_and_exit. }
  destruct (cmd_of a); try exact Hrun.
  apply tame_emit. reflexivity.
Qed.

(** The script adds to the trace what [main] adds and, after an exception
    that nobody caught, the report of the interpreter. *)
Lemma script_of_tame_main (env : Env) (P : list string -> bool) (a : args) (t : trace) :
  tame P (main env a) ->
  exists d,
    snd (script env a t) = (t ++ d)%list
    /\ forallb P (git_commands d) = true
    /\ (fst (script env a t) = 0%Z
        \/ (fst (script env a t) = 1%Z
            /\ (error_printed d = true \/ exists e d', d = (d' ++ [Traceback e])%list))).
Proof.
  intros Hm. destruct (Hm t) as (d & Hd & Hg & He). unfold script.
  destruct (main env a t) as [[[] | [code | rc cmd err | msg]] t'];
    cbn [fst snd ends_well] in *; subst t'.
  - exists d. split; [reflexivity |]. split; [exact Hg |]. now left.
  - destruct He as [-> Hp]. exists d. split; [reflexivity |]. split; [exact Hg |].
    right. split; [reflexivity |]. now left.
  - contradiction.
  - exists (d ++ [Traceback (Failure msg)])%list. rewrite app_assoc.
    split; [reflexivity |]. split.
    + now rewrite git_commands_app, forallb_app, Hg.
    + right. split; [reflexivity |]. right. now exists (Failure msg), d.
Qed.




(** ** Hotfix and release branches *)


Lemma quiet_for_each {A} (l : list A) (body : A -> M unit) :
  (forall a, quiet_run (body a)) -> quiet_run (for_each l body).
Proof.
  intros Hbody. induction l as [| a l IH]; cbn [for_each].
  - apply quiet_ret.
  - apply quiet_bind; [apply Hbody | intros _; exact IH].
Qed.

(** X4.  A release with a version that passes the validation issues
    [checkout base], [pull origin base], [checkout -b release/<version>],
    then, after the version files, [add .], [commit -m "Bump version to
    <version>"] and [push -u origin release/<version>], in that order and
    up to the first failure; when it returns, all six were issued and none
    failed. *)
Theorem release_commands_in_order (env : Env) (version base : string) (t : trace) :
  version_re_match version = true ->
  exists d,
    snd (create_release_branch env version base t) = (t ++ d)%list
    /\ (exists k, git_commands d = firstn k (release_commands version base))
    /\ (fst (create_release_branch env version base t) = Return tt ->
        git_commands d = release_commands version base
        /\ git_failed env t d = false).
Proof.
  intros Hv. unfold create_release_branch. rewrite Hv. cbn [negb]. monad_unfold.
  step_git; [step_git; [step_git |..] |..].
  1: match goal with
     | |- context [for_each ?l ?body ?t'] =>
         destruct (quiet_for_each l body
                     ltac:(intros; apply quiet_update_version_file) t')
           as (d0 & Hd0 & Hg0);
         pose proof (git_failed_no_command env t' d0 Hg0) as Hf0;
         destruct (for_each l body t') as [[[] | e] t'']; cbn [snd] in Hd0; subst t''
     end.
  1: repeat step_git.
  all: repeat rewrite <- app_assoc; eexists; (split; [reflexivity |]);
    rewrite ?git_commands_app, ?Hg0, ?git_failed_app, ?Hf0;
    cbn [git_commands flat_map app git_failed];
    (split; [first [ some_prefix | exists 5%nat; reflexivity
                   | exists 6%nat; reflexivity ] |]);
    intros H; try discriminate H.
  split; [reflexivity |]. use_git_ok. reflexivity.
Qed.

(** A release of version 1.2.3 from the main line, where every command
    succeeds and no version file exists. *)
Lemma release_commands_in_order_witness :
  git_commands (snd (create_release_branch quiet "1.2.3" "main" []))
  = release_commands "1.2.3" "main".
Proof.
  destruct (release_commands_in_order quiet "1.2.3" "main" [] eq_refl)
    as (d & Hd & _ & H).
  rewrite Hd. apply (H eq_refl).
Defined.

(** ** The version files *)

(** X5.  The update of [package.json] never raises: a file that cannot be
    read, a text that is not JSON and a write that fails are each
    reported by one warning line.  It runs no [git] command, and what it
    writes, if anything, is to [package.json] and is the text read from it
    with the version set. *)
Theorem package_json_update_never_raises (env : Env) (version : string) (t : trace) :
  exists d,
    _update_package_json_version env version t = (Return tt, (t ++ d)%list)
    /\ git_commands d = []
    /\ (forall path content,
           In (WriteFile path content) d ->
           path = "package.json"
           /\ exists text,
                read_file env t "package.json" = inl text
                /\ json_set_version env text version = inl content).
Proof.
  unfold _update_package_json_version. monad_unfold.
  destruct (read_file env t "package.json") as [text | msg] eqn:Hread; cbv beta iota.
  - destruct (json_set_version env text version) as [text' | msg] eqn:Hjson;
      cbv beta iota.
    + match goal with
      | |- context [write_file env ?t' ?p ?c] => destruct (write_file env t' p c)
      end;
        cbv beta iota; cbn [is_Exception]; trace_norm; eexists;
        (split; [reflexivity |]); (split; [reflexivity |]);
        intros path content Hin; cbn [In] in Hin;
        repeat (destruct Hin as [Hin | Hin]; try discriminate Hin);
        try contradiction;
        injection Hin as <- <-; (split; [reflexivity |]); now exists text.
    + cbn [is_Exception]. trace_norm. eexists.
      split; [reflexivity |]. split; [reflexivity |].
      intros path content Hin. cbn [In] in Hin.
      repeat (destruct Hin as [Hin | Hin]; try discriminate Hin). contradiction.
  - cbn [is_Exception]. trace_norm. eexists.
    split; [reflexivity |]. split; [reflexivity |].
    intros path content Hin. cbn [In] in Hin.
    repeat (destruct Hin as [Hin | Hin]; try discriminate Hin). contradiction.
Qed.

Lemma absent_version_file (env : Env) (version path : string) (t : trace) :
  path_exists env t path = false ->
  update_version_file env version path t = (Return tt, (t ++ [PathExists path])%list).
Proof. intros H. unfold update_version_file. monad_unfold. now rewrite H. Qed.

(** X6.  When none of [version.txt], [VERSION] and [package.json] exists,
    the release reads and writes no file at all: it never creates a
    version file. *)
Theorem release_creates_no_version_file
    (env : Env) (version base : string) (t : trace) :
  (forall t' path, path_exists env t' path = false) ->
  exists d,
    snd (create_release_branch env version base t) = (t ++ d)%list
    /\ forallb (fun ev => negb (touches_file ev)) d = true.
Proof.
  intros Hno. unfold create_release_branch.
  destruct (version_re_match version); cbn [negb]; monad_unfold.
  - step_git; [step_git; [step_git |..] |..].
    1: cbn [for_each]; unfold bind;
       rewrite !absent_version_file by apply Hno; cbv beta iota; unfold ret;
       repeat step_git.
    all: trace_norm; eexists; split; reflexivity.
  - trace_norm. eexists. split; reflexivity.
Qed.

Lemma release_creates_no_version_file_witness :
  exists d,
    snd (create_release_branch quiet "1.2.3" "main" []) = ([] ++ d)%list
    /\ forallb (fun ev => negb (touches_file ev)) d = true.
Proof.
  apply (release_creates_no_version_file quiet "1.2.3" "main" []).
  reflexivity.
Defined.

(** X7.  When [version.txt] exists and cannot be written, the release stops
    there with the exception of the write: the release branch has been
    created and checked out, nothing has been added, committed or pushed,
    and the script ends with exit status 1 after the line [❌ Error: ...]. *)
Theorem version_file_write_failure_aborts
    (env : Env) (repo : option string) (version base msg : string) (t : trace) :
  let t0 := (t ++ [Print (release_banner version)])%list in
  let t1 := (t0 ++ [Git ["checkout"; base]])%list in
  let t2 := (t1 ++ [Git ["pull"; "origin"; base]])%list in
  let t3 := (t2 ++ [Git ["checkout"; "-b"; ("release/" ++ version)%string]])%list in
  let t4 := (t3 ++ [PathExists "version.txt"])%list in
  let t5 := (t4 ++ [Print "Updating version in version.txt"])%list in
  let t6 := (t5 ++ [WriteFile "version.txt" (version ++ Py.nl)%string])%list in
  version_re_match version = true ->
  git_ok env t0 ["checkout"; base] = true ->
  git_ok env t1 ["pull"; "origin"; base] = true ->
  git_ok env t2 ["checkout"; "-b"; "release/" ++ version] = true ->
  path_exists env t3 "version.txt" = true ->
  write_file env t5 "version.txt" (version ++ Py.nl) = Some msg ->
  create_release_branch env version base t = (Raise (Failure msg), t6)
  /\ forall self t',
       GitWorkflowAutomator env repo t' = (Return self, t) ->
       script env {| repository := repo; cmd_of := Release version base |} t'
       = (1%Z, (t6 ++ [Print ("❌ Error: " ++ msg)%string])%list).
Proof.
  intros t0 t1 t2 t3 t4 t5 t6 Hv H0 H1 H2 Hx Hw.
  assert (Hrun : create_release_branch env version base t = (Raise (Failure msg), t6)).
  { unfold create_release_branch. rewrite Hv. cbn [negb]. monad_unfold.
    fold (release_banner version). fold t0.
    step_git; try congruence. fold t1.
    step_git; try congruence. fold t2.
    step_git; try congruence. fold t3.
    cbn [for_each]. unfold bind at 1. unfold update_version_file at 1.
    monad_unfold. rewrite Hx. cbv beta iota. cbn [String.eqb Ascii.eqb Bool.eqb].
    change ("Updating version in " ++ "version.txt")
      with "Updating version in version.txt".
    fold t4. fold t5. rewrite Hw. reflexivity. }
  split; [exact Hrun |].
  intros self t' Hc. unfold script, main. cbn [cmd_of repository].
  unfold bind at 1. rewrite Hc. unfold try_except. cbn [dispatch].
  rewrite Hrun. cbn [is_Exception]. monad_unfold. reflexivity.
Qed.

Lemma version_file_write_failure_aborts_witness :
  git_commands (snd (create_release_branch read_only_tree "1.2.3" "main" []))
  = [ ["checkout"; "main"]; ["pull"; "origin"; "main"];
      ["checkout"; "-b"; "release/1.2.3"] ]
  /\ fst (create_release_branch read_only_tree "1.2.3" "main" [])
     = Raise (Failure "[Errno 13] Permission denied: 'version.txt'").
Proof.
  destruct (version_file_write_failure_aborts read_only_tree None "1.2.3" "main"
              "[Errno 13] Permission denied: 'version.txt'" []
              eq_refl eq_refl eq_refl eq_refl eq_refl eq_refl) as [H _].
  rewrite H. split; reflexivity.
Defined.

(** ** The parts of the health check *)

Section HealthParts.

Variable env : Env.

Lemma warns_with_issue_added (i : string) (r : health_report) :
  warns_with_issue (set_status "warning" (add_issue i r)).
Proof.
  intros _. cbn [issues set_status add_issue].
  destruct (issues r); discriminate.
Qed.

Lemma check_uncommitted_run (r : health_report) (t : trace) :
  exists d,
    snd (check_uncommitted env r t) = (t ++ d)%list
    /\ (git_ok env t status_porcelain = true ->
        git_commands d = [status_porcelain]
        /\ exists r',
             fst (check_uncommitted env r t) = Return r'
             /\ (warns_with_issue r -> warns_with_issue r'))
    /\ (git_ok env t status_porcelain = false ->
        git_commands d = [status_porcelain]
        /\ exists e, fst (check_uncommitted env r t) = Raise e).
Proof.
  unfold check_uncommitted, status_porcelain. monad_unfold.
  step_git; read_trace; (split; intros H; try discriminate H);
    (split; [reflexivity |]); eexists;
    first [reflexivity | split; [reflexivity |]].
  intros Hr. destruct (truthy (Py.strip out)); [apply warns_with_issue_added | exact Hr].
Qed.

Lemma check_unpushed_run (r : health_report) (t : trace) :
  exists r' d,
    check_unpushed env r t = (Return r', (t ++ d)%list)
    /\ git_commands d = [log_unpushed]
    /\ (warns_with_issue r -> warns_with_issue r').
Proof.
  unfold check_unpushed, log_unpushed. monad_unfold.
  step_git; cbn [anything]; trace_norm; eexists; eexists;
    (split; [reflexivity |]); (split; [reflexivity |]); trivial.
  intros Hr.
  destruct (0 <? _)%nat; [apply warns_with_issue_added | exact Hr].
Qed.

Lemma check_branch_age_run (r : health_report) (t : trace) :
  exists r' d,
    check_branch_age env r t = (Return r', (t ++ d)%list)
    /\ git_commands d = [["show"; "-s"; "--format=%ci"; "HEAD"]]
    /\ (warns_with_issue r -> warns_with_issue r').
Proof.
  unfold check_branch_age. monad_unfold.
  step_git; cbn [anything].
  1: match goal with
     | |- context [days_since env ?t' ?s] => destruct (days_since env t' s) as [msg | days]
     end;
     cbv beta iota; [| destruct (30 <? days)%Z].
  all: trace_norm; eexists; eexists;
    (split; [reflexivity |]); (split; [reflexivity |]); trivial.
Qed.

Lemma check_large_files_run (r : health_report) (t : trace) :
  exists r' d,
    check_large_files env r t = (Return r', (t ++ d)%list)
    /\ git_commands d = [["ls-files"; "-s"]]
    /\ (warns_with_issue r -> warns_with_issue r').
Proof.
  unfold check_large_files. monad_unfold.
  step_git; cbn [anything].
  1: match goal with
     | |- context [scan_large_files ?l ?acc ?t'] =>
         pose proof (scan_large_files_trace l acc t') as Hscan;
         destruct (scan_large_files l acc t') as [[[| f fs] | e] t''];
         cbn [snd] in Hscan; subst t''
     end.
  all: trace_norm; eexists; eexists;
    (split; [reflexivity |]); (split; [reflexivity |]); trivial.
  intros Hr Hw. cbn [issues set_metric add_recommendation add_issue].
  destruct (issues r); discriminate.
Qed.

(** The report is printed line by line, as [report_lines] gives it. *)
Lemma print_report_lines (r : health_report) (t : trace) :
  print_report r t = (Return tt, (t ++ map Print (report_lines r))%list).
Proof.
  unfold print_report, report_lines, section_lines, status_line. monad_unfold.
  destruct (issues r) as [| i li]; destruct (recommendations r) as [| c lc];
    destruct (metrics r) as [| m lm];
    rewrite ?(print_each_of _ item_line) by reflexivity;
    cbv beta iota;
    rewrite ?(print_each_of _ item_line) by reflexivity;
    cbv beta iota;
    rewrite ?(print_each_of print_metric metric_line)
      by (intros [key [n | files]] t0; reflexivity);
    repeat first [ rewrite map_map | rewrite app_nil_r | rewrite map_app
                 | rewrite <- app_assoc | progress cbn [app map] ];
    reflexivity.
Qed.

End HealthParts.

Lemma git_commands_map_print (lines : list string) :
  git_commands (map Print lines) = [].
Proof. induction lines as [| l ls IH]; [reflexivity | exact IH]. Qed.

(** The health check, part by part. *)
Lemma health_check_run (env : Env) (t : trace) :
  (git_ok env (t ++ [Print health_banner])%list status_porcelain = true ->
   exists r d,
     repository_health_check env t = (Return r, (t ++ d)%list)
     /\ git_commands d = health_queries
     /\ warns_with_issue r)
  /\ (git_ok env (t ++ [Print health_banner])%list status_porcelain = false ->
      exists e d,
        repository_health_check env t = (Raise e, (t ++ d)%list)
        /\ git_commands d = [status_porcelain]).
Proof.
  unfold repository_health_check, bind, print, emit.
  fold health_banner.
  set (r0 := {| status := "healthy"; issues := [];
                recommendations := []; metrics := [] |}).
  assert (H0 : warns_with_issue r0) by (intros H; discriminate H).
  destruct (check_uncommitted_run env r0 (t ++ [Print health_banner])%list)
    as (d1 & Hd1 & Hok & Hko).
  destruct (check_uncommitted env r0 (t ++ [Print health_banner])%list)
    as [[r1 | e] t1]; cbn [fst snd] in Hd1, Hok, Hko; subst t1.
  - destruct (git_ok env (t ++ [Print health_banner])%list status_porcelain).
    2: { destruct (Hko eq_refl) as (_ & e & He). discriminate He. }
    destruct (Hok eq_refl) as (G1 & r1' & [= <-] & W1). specialize (W1 H0).
    destruct (check_unpushed_run env r1 ((t ++ [Print health_banner]) ++ d1)%list)
      as (r2 & d2 & -> & G2 & W2).
    destruct (check_branch_age_run env r2
                (((t ++ [Print health_banner]) ++ d1) ++ d2)%list)
      as (r3 & d3 & -> & G3 & W3).
    destruct (check_large_files_run env r3
                ((((t ++ [Print health_banner]) ++ d1) ++ d2) ++ d3)%list)
      as (r4 & d4 & -> & G4 & W4).
    rewrite print_report_lines. unfold ret.
    split; [| intros H; discriminate H]. intros _.
    exists r4, ([Print health_banner] ++ d1 ++ d2 ++ d3 ++ d4
                ++ map Print (report_lines r4))%list.
    split; [now repeat rewrite <- app_assoc |]. split; [| auto].
    rewrite !git_commands_app, G1, G2, G3, G4, git_commands_map_print.
    reflexivity.
  - destruct (git_ok env (t ++ [Print health_banner])%list status_porcelain).
    1: { destruct (Hok eq_refl) as (_ & r' & Hr & _). discriminate Hr. }
    destruct (Hko eq_refl) as (G1 & _).
    split; [intros H; discriminate H |]. intros _.
    exists e, ([Print health_banner] ++ d1)%list.
    split; [now rewrite app_assoc |].
    rewrite git_commands_app, G1. reflexivity.
Qed.

(** X8.  The health check is made of queries only and does what it can:
    when [git status --porcelain] succeeds it asks, in this order,
    [status], [log origin/main..HEAD], [show] and [ls-files], whatever the
    last three answer, and returns a report; when it fails, nothing else is
    asked and the check ends with the exception. *)
Theorem health_check_asks_four_queries (env : Env) (t : trace) :
  exists d,
    snd (repository_health_check env t) = (t ++ d)%list
    /\ (git_ok env (t ++ [Print health_banner])%list status_porcelain = true ->
        git_commands d = health_queries
        /\ exists r, fst (repository_health_check env t) = Return r)
    /\ (git_ok env (t ++ [Print health_banner])%list status_porcelain = false ->
        git_commands d = [status_porcelain]
        /\ exists e, fst (repository_health_check env t) = Raise e).
Proof.
  destruct (health_check_run env t) as [Hok Hko].
  destruct (git_ok env (t ++ [Print health_banner])%list status_porcelain).
  - destruct (Hok eq_refl) as (r & d & -> & G & _).
    exists d. split; [reflexivity |]. split; [| intros H; discriminate H].
    intros _. split; [exact G |]. now exists r.
  - destruct (Hko eq_refl) as (e & d & -> & G).
    exists d. split; [reflexivity |]. split; [intros H; discriminate H |].
    intros _. split; [exact G |]. now exists e.
Qed.

(** X9.  A report that the health check returns with status [warning]
    lists at least one issue. *)
Theorem health_report_warns_with_issue (env : Env) (t : trace) (r : health_report) :
  fst (repository_health_check env t) = Return r -> warns_with_issue r.
Proof.
  intros Hr. destruct (health_check_run env t) as [Hok Hko].
  destruct (git_ok env (t ++ [Print health_banner])%list status_porcelain).
  - destruct (Hok eq_refl) as (r' & d & Hrun & _ & W).
    rewrite Hrun in Hr. now injection Hr as <-.
  - destruct (Hko eq_refl) as (e & d & Hrun & _).
    rewrite Hrun in Hr. discriminate Hr.
Qed.

Lemma health_report_warns_with_issue_witness :
  exists r,
    fst (repository_health_check dirty_tree []) = Return r
    /\ status r = "warning"
    /\ issues r <> [].
Proof.
  eexists. split; [reflexivity |]. split; [reflexivity |].
  apply (health_report_warns_with_issue dirty_tree [] _ eq_refl). reflexivity.
Defined.

Lemma printed_map_print (lines : list string) : printed (map Print lines) = lines.
Proof. induction lines as [| l ls IH]; [reflexivity |]. cbn. now f_equal. Qed.

Lemma in_section_lines {A} (title : string) (line : A -> string) (l : list A) (x : A) :
  In x l -> In (line x) (section_lines title line l).
Proof.
  intros H. destruct l as [| a l]; [contradiction |].
  cbn [section_lines]. right. now apply in_map.
Qed.

(** X10.  The printed report starts with the status line and shows every
    issue, every recommendation and every metric of the report it is given,
    each on a line of its own. *)
Theorem report_shows_everything (r : health_report) (t : trace) :
  exists d,
    print_report r t = (Return tt, (t ++ d)%list)
    /\ hd_error (printed d) = Some (status_line r)
    /\ (forall issue, In issue (issues r) -> In (item_line issue) (printed d))
    /\ (forall rec, In rec (recommendations r) -> In (item_line rec) (printed d))
    /\ (forall kv, In kv (metrics r) -> In (metric_line kv) (printed d)).
Proof.
  exists (map Print (report_lines r)).
  split; [apply print_report_lines |].
  rewrite printed_map_print. unfold report_lines.
  split; [reflexivity |].
  repeat split; intros x Hx; right; rewrite !in_app_iff.
  - left. now apply in_section_lines.
  - right; left. now apply in_section_lines.
  - right; right. now apply in_section_lines.
Qed.

(** ** The scan for large files *)

(** X11.  Every file the scan reports is larger than 10 MiB: a file of
    exactly 10 MiB is not reported. *)
Theorem scan_reports_only_large_files
    (lines : list string) (t t' : trace) (found : list (string * Z)) :
  scan_large_files lines [] t = (Return found, t') ->
  Forall (fun f => (large_file_threshold < snd f)%Z) found.
Proof.
  assert (H : forall acc,
             Forall (fun f => (large_file_threshold < snd f)%Z) acc ->
             scan_large_files lines acc t = (Return found, t') ->
             Forall (fun f => (large_file_threshold < snd f)%Z) found).
  { induction lines as [| line rest IH]; intros acc Hacc; cbn [scan_large_files].
    - unfold ret. now intros [= <- _].
    - destruct (truthy line); [| now apply IH].
      destruct (2 <=? length (Py.split Py.TAB line))%nat; [| now apply IH].
      unfold bind, index, int_of.
      destruct (nth_error _ 3) as [field |]; [| discriminate].
      cbn [ret]. destruct (Py.int field) as [size |]; [| discriminate].
      cbn [ret]. destruct (10 * 1024 * 1024 <? size)%Z eqn:Hs; [| now apply IH].
      apply IH. apply Forall_app. split; [exact Hacc |].
      constructor; [| constructor]. cbn [snd]. now apply Z.ltb_lt. }
  apply H. constructor.
Qed.

Lemma scan_reports_only_large_files_witness :
  fst (scan_large_files
         [sized_line "10485760" "exact.bin"; sized_line "10485761" "over.bin"] [] [])
  = Return [("over.bin", 10485761%Z)]
  /\ Forall (fun f => (large_file_threshold < snd f)%Z) [("over.bin", 10485761%Z)].
Proof.
  split; [reflexivity |].
  apply (scan_reports_only_large_files
           [sized_line "10485760" "exact.bin"; sized_line "10485761" "over.bin"]
           [] []).
  reflexivity.
Defined.

(** ** More about Python strings *)

Lemma has_char_cons (c x : ascii) (s : string) :
  Py.has_char c (String x s) = Ascii.eqb c x || Py.has_char c s.
Proof. reflexivity. Qed.

Lemma has_char_append (c : ascii) (a b : string) :
  Py.has_char c (a ++ b) = Py.has_char c a || Py.has_char c b.
Proof.
  induction a as [| x a IH]; [reflexivity |].
  now rewrite append_cons, !has_char_cons, IH, orb_assoc.
Qed.

Lemma split_at_sep (sep : ascii) (a s : string) :
  Py.has_char sep a = false ->
  Py.split sep (a ++ String sep s) = a :: Py.split sep s.
Proof.
  induction a as [| c a IH]; intros Ha.
  - change ("" ++ String sep s) with (String sep s).
    cbn [Py.split]. now rewrite Ascii.eqb_refl.
  - rewrite has_char_cons in Ha. apply orb_false_elim in Ha. destruct Ha as [Hc Ha].
    rewrite append_cons. cbn [Py.split]. rewrite Ascii.eqb_sym, Hc.
    now rewrite (IH Ha).
Qed.

Lemma split_without_sep (sep : ascii) (a : string) :
  Py.has_char sep a = false -> Py.split sep a = [a].
Proof.
  induction a as [| c a IH]; intros Ha; [reflexivity |].
  rewrite has_char_cons in Ha. apply orb_false_elim in Ha. destruct Ha as [Hc Ha].
  cbn [Py.split]. rewrite Ascii.eqb_sym, Hc. now rewrite (IH Ha).
Qed.

Lemma word_not_empty (w : string) : word w = true -> w <> "".
Proof. intros H ->. discriminate H. Qed.

Lemma word_cons (c : ascii) (w : string) :
  word (String c w) = true ->
  Py.isspace c = false
  /\ forallb (fun x => negb (Py.isspace x)) (list_ascii_of_string w) = true.
Proof.
  unfold word. cbn [truthy String.eqb negb andb list_ascii_of_string forallb].
  intros H. apply andb_prop in H. destruct H as [Hc Hw].
  split; [now apply negb_true_iff | exact Hw].
Qed.

Lemma no_space_in_word (c : ascii) (w : string) :
  forallb (fun x => negb (Py.isspace x)) (list_ascii_of_string w) = true ->
  Py.isspace c = true -> Py.has_char c w = false.
Proof.
  intros Hw Hc. induction w as [| x w IH]; [reflexivity |].
  cbn [list_ascii_of_string forallb] in Hw.
  apply andb_prop in Hw. destruct Hw as [Hx Hw].
  rewrite has_char_cons, (IH Hw), orb_false_r.
  destruct (Ascii.eqb_spec c x) as [-> | _]; [| reflexivity].
  rewrite Hc in Hx. discriminate Hx.
Qed.

Lemma word_has_no_space (c : ascii) (w : string) :
  word w = true -> Py.isspace c = true -> Py.has_char c w = false.
Proof.
  unfold word. intros H. apply andb_prop in H. destruct H as [_ H].
  now apply no_space_in_word.
Qed.

Lemma rev_string_twice (s acc acc' : string) :
  Py.rev_string acc' (Py.rev_string acc s) = Py.rev_string (s ++ acc') acc.
Proof.
  revert acc acc'. induction s as [| c s IH]; intros acc acc'; [reflexivity |].
  cbn [Py.rev_string]. rewrite IH. reflexivity.
Qed.

Lemma rev_string_involutive (s : string) :
  Py.rev_string "" (Py.rev_string "" s) = s.
Proof. rewrite rev_string_twice. cbn [Py.rev_string]. apply append_empty_r. Qed.

Lemma fields_from_word (w x rest : string) :
  forallb (fun c => negb (Py.isspace c)) (list_ascii_of_string x) = true ->
  Py.fields_from w (x ++ rest) = Py.fields_from (Py.rev_string w x) rest.
Proof.
  revert w. induction x as [| c x IH]; intros w Hx; [reflexivity |].
  cbn [list_ascii_of_string forallb] in Hx.
  apply andb_prop in Hx. destruct Hx as [Hc Hx]. apply negb_true_iff in Hc.
  rewrite append_cons. cbn [Py.fields_from Py.rev_string]. rewrite Hc.
  now apply IH.
Qed.

Lemma rev_string_word (w : string) : word w = true -> Py.rev_string "" w <> "".
Proof.
  intros Hw H. apply (word_not_empty w Hw).
  rewrite <- (rev_string_involutive w), H. reflexivity.
Qed.

(** A word followed by white space is the first field. *)
Lemma fields_word_then_space (w : string) (c : ascii) (rest : string) :
  word w = true -> Py.isspace c = true ->
  Py.split_ws (w ++ String c rest) = w :: Py.split_ws rest.
Proof.
  intros Hw Hc. unfold Py.split_ws.
  pose proof (rev_string_word w Hw) as Hr.
  unfold word in Hw. apply andb_prop in Hw. destruct Hw as [_ Hw].
  rewrite (fields_from_word "" w _ Hw). cbn [Py.fields_from]. rewrite Hc.
  destruct (Py.rev_string "" w) as [| x r] eqn:E; [now elim Hr |].
  rewrite <- E, rev_string_involutive. reflexivity.
Qed.

(** A word alone is the only field. *)
Lemma fields_word_alone (w : string) : word w = true -> Py.split_ws w = [w].
Proof.
  intros Hw. unfold Py.split_ws.
  pose proof (rev_string_word w Hw) as Hr.
  unfold word in Hw. apply andb_prop in Hw. destruct Hw as [_ Hw].
  rewrite <- (append_empty_r w) at 1.
  rewrite (fields_from_word "" w _ Hw). cbn [Py.fields_from].
  destruct (Py.rev_string "" w) as [| x r] eqn:E; [now elim Hr |].
  rewrite <- E, rev_string_involutive. reflexivity.
Qed.

Lemma truthy_append (a b : string) : truthy a = true -> truthy (a ++ b) = true.
Proof. destruct a; [discriminate | reflexivity]. Qed.

Lemma word_truthy (w : string) : word w = true -> truthy w = true.
Proof. unfold word. intros H. now apply andb_prop in H. Qed.

(** The part of a line before the tab, in three fields. *)
Lemma three_fields (mode object stage : string) :
  word mode = true -> word object = true -> word stage = true ->
  Py.split_ws (mode ++ " " ++ object ++ " " ++ stage) = [mode; object; stage]
  /\ Py.has_char Py.TAB (mode ++ " " ++ object ++ " " ++ stage) = false
  /\ Py.has_char Py.LF (mode ++ " " ++ object ++ " " ++ stage) = false.
Proof.
  intros Hm Ho Hs. split; [| split].
  - change (" " ++ object ++ " " ++ stage) with (String " " (object ++ String " " stage)).
    rewrite (fields_word_then_space mode " " _ Hm eq_refl).
    rewrite (fields_word_then_space object " " _ Ho eq_refl).
    now rewrite (fields_word_alone stage Hs).
  - rewrite !has_char_append.
    rewrite (word_has_no_space Py.TAB mode Hm eq_refl),
      (word_has_no_space Py.TAB object Ho eq_refl),
      (word_has_no_space Py.TAB stage Hs eq_refl). reflexivity.
  - rewrite !has_char_append.
    rewrite (word_has_no_space Py.LF mode Hm eq_refl),
      (word_has_no_space Py.LF object Ho eq_refl),
      (word_has_no_space Py.LF stage Hs eq_refl). reflexivity.
Qed.

Lemma ls_files_line_parts (mode object stage path : string) :
  ls_files_line mode object stage path
  = (mode ++ " " ++ object ++ " " ++ stage) ++ String Py.TAB path.
Proof. unfold ls_files_line. now rewrite !append_assoc. Qed.

(** The scan stops at a line in the format of [git]: there is no fourth
    field before the tab. *)
Lemma scan_stops_at_git_line
    (mode object stage path : string) (rest : list string)
    (acc : list (string * Z)) (t : trace) :
  word mode = true -> word object = true -> word stage = true ->
  scan_large_files (ls_files_line mode object stage path :: rest) acc t
  = (Raise (Failure "list index out of range"), t).
Proof.
  intros Hm Ho Hs. destruct (three_fields mode object stage Hm Ho Hs) as (Hf & Ht & _).
  cbn [scan_large_files]. rewrite ls_files_line_parts.
  rewrite truthy_append by (apply truthy_append, word_truthy, Hm).
  rewrite (split_at_sep Py.TAB _ path Ht).
  destruct (Py.split Py.TAB path) as [| p ps] eqn:Hp;
    [now elim (split_not_empty Py.TAB path) |].
  cbn [length Nat.leb nth]. rewrite Hf. reflexivity.
Qed.

(** X12.  On an output of [git ls-files -s] whose first line has the format
    that [git] prints, [<mode> <object> <stage>], a tab, then the path, the
    check for large files finds nothing, whatever follows: the look-up of a
    fourth field raises, the part is abandoned and the report is returned
    as it was. *)
Theorem git_listing_defeats_large_file_check
    (env : Env) (r : health_report) (t : trace)
    (mode object stage path more err : string) :
  word mode = true -> word object = true -> word stage = true ->
  Py.has_char Py.LF path = false ->
  run_git env t ["ls-files"; "-s"]
  = Completed 0 (ls_files_line mode object stage path ++ Py.nl ++ more) err ->
  check_large_files env r t = (Return r, (t ++ [Git ["ls-files"; "-s"]])%list).
Proof.
  intros Hm Ho Hs Hp Hq.
  destruct (three_fields mode object stage Hm Ho Hs) as (_ & _ & Hl).
  unfold check_large_files. monad_unfold.
  destruct (run_git_command_cases env ["ls-files"; "-s"] t)
    as [(out' & err' & Hq' & ->) | [(rc & out' & err' & Hrc & Hq' & _) | (msg & Hq' & _)]];
    rewrite Hq in Hq'; inversion Hq'; subst; [| now elim Hrc].
  cbv beta iota.
  change (Py.nl ++ more) with (String Py.LF more).
  rewrite split_at_sep.
  - rewrite scan_stops_at_git_line by assumption. reflexivity.
  - rewrite ls_files_line_parts, has_char_append, Hl, has_char_cons, Hp. reflexivity.
Qed.

Lemma git_listing_defeats_large_file_check_witness :
  check_large_files lists_files_as_git empty_report []
  = (Return empty_report, [Git ["ls-files"; "-s"]]).
Proof.
  exact (git_listing_defeats_large_file_check lists_files_as_git empty_report []
           "100644" "e69de29bb2d1d6434b8b29ae775ad8c2e48c5391" "0"
           "big.bin" "" "" eq_refl eq_refl eq_refl eq_refl eq_refl).
Defined.

Lemma four_fields (mode object stage size : string) :
  word mode = true -> word object = true -> word stage = true -> word size = true ->
  Py.split_ws (mode ++ " " ++ object ++ " " ++ stage ++ " " ++ size)
  = [mode; object; stage; size]
  /\ Py.has_char Py.TAB (mode ++ " " ++ object ++ " " ++ stage ++ " " ++ size) = false.
Proof.
  intros Hm Ho Hs Hz. split.
  - change (" " ++ object ++ " " ++ stage ++ " " ++ size)
      with (String " " (object ++ String " " (stage ++ String " " size))).
    rewrite (fields_word_then_space mode " " _ Hm eq_refl).
    rewrite (fields_word_then_space object " " _ Ho eq_refl).
    rewrite (fields_word_then_space stage " " _ Hs eq_refl).
    now rewrite (fields_word_alone size Hz).
  - rewrite !has_char_append.
    rewrite (word_has_no_space Py.TAB mode Hm eq_refl),
      (word_has_no_space Py.TAB object Ho eq_refl),
      (word_has_no_space Py.TAB stage Hs eq_refl),
      (word_has_no_space Py.TAB size Hz eq_refl). reflexivity.
Qed.

(** One line with a size: the entry is kept when it is large. *)
Lemma scan_sized_line (e : sized_entry) (rest : list string)
    (acc : list (string * Z)) (t : trace) :
  entry_ok e ->
  scan_large_files (entry_line e :: rest) acc t
  = scan_large_files rest
      (if is_large e then acc ++ [(e_path e, e_value e)] else acc)%list t.
Proof.
  intros (Hm & Ho & Hs & Hz & Hv & Hp).
  destruct (four_fields _ _ _ _ Hm Ho Hs Hz) as [Hf Ht].
  cbn [scan_large_files]. unfold entry_line.
  replace (e_mode e ++ " " ++ e_object e ++ " " ++ e_stage e ++ " " ++ e_size e
           ++ String Py.TAB (e_path e))
    with ((e_mode e ++ " " ++ e_object e ++ " " ++ e_stage e ++ " " ++ e_size e)
          ++ String Py.TAB (e_path e))
    by now rewrite !append_assoc.
  rewrite truthy_append by (apply truthy_append, word_truthy, Hm).
  rewrite (split_at_sep Py.TAB _ _ Ht), (split_without_sep Py.TAB _ Hp).
  cbn [length Nat.leb nth]. rewrite Hf.
  unfold bind, index, int_of. cbn [nth_error ret]. rewrite Hv. cbn [ret].
  unfold is_large, large_file_threshold.
  now destruct (10 * 1024 * 1024 <? e_value e)%Z.
Qed.



(** *** Stripping *)

Lemma rstrip_cons (c : ascii) (r : string) :
  Py.rstrip (String c r)
  = match Py.rstrip r with
    | "" => if Py.isspace c then "" else String c ""
    | r' => String c r'
    end.
Proof. reflexivity. Qed.

Lemma rstrip_idempotent (s : string) : Py.rstrip (Py.rstrip s) = Py.rstrip s.
Proof.
  induction s as [| c s IH]; [reflexivity |].
  rewrite rstrip_cons. destruct (Py.rstrip s) as [| x r] eqn:E.
  - destruct (Py.isspace c) eqn:Hc; [reflexivity |].
    rewrite rstrip_cons. cbn [Py.rstrip]. now rewrite Hc.
  - rewrite rstrip_cons, IH. reflexivity.
Qed.

Lemma lstrip_starts_clean (s : string) : starts_clean (Py.lstrip s).
Proof.
  induction s as [| c s IH]; [exact I |].
  cbn [Py.lstrip]. destruct (Py.isspace c) eqn:Hc; [exact IH | exact Hc].
Qed.

Lemma lstrip_of_clean (s : string) : starts_clean s -> Py.lstrip s = s.
Proof. destruct s as [| c s]; [reflexivity |]. cbn. now intros ->. Qed.

Lemma rstrip_starts_clean (s : string) : starts_clean s -> starts_clean (Py.rstrip s).
Proof.
  destruct s as [| c s]; [trivial |]. intros Hc. cbn in Hc.
  rewrite rstrip_cons. destruct (Py.rstrip s); [rewrite Hc |]; exact Hc.
Qed.

Lemma strip_idempotent (s : string) : Py.strip (Py.strip s) = Py.strip s.
Proof.
  unfold Py.strip.
  rewrite (lstrip_of_clean (Py.rstrip (Py.lstrip s))).
  - apply rstrip_idempotent.
  - apply rstrip_starts_clean, lstrip_starts_clean.
Qed.

(** Stripping on the right of a concatenation. *)
Lemma rstrip_append_kept (a b : string) :
  Py.rstrip b <> "" -> Py.rstrip (a ++ b) = a ++ Py.rstrip b.
Proof.
  intros Hb. induction a as [| c a IH]; [reflexivity |].
  rewrite !append_cons, rstrip_cons, IH.
  destruct (a ++ Py.rstrip b) as [| x r] eqn:E; [| reflexivity].
  destruct a; [now elim Hb | discriminate E].
Qed.

Lemma rstrip_append_dropped (a b : string) :
  Py.rstrip b = "" -> Py.rstrip (a ++ b) = Py.rstrip a.
Proof.
  intros Hb. induction a as [| c a IH]; [exact Hb |].
  now rewrite append_cons, !rstrip_cons, IH.
Qed.

(** A stripped text is a part of the text. *)
Lemma lstrip_is_suffix (s : string) : exists w, s = w ++ Py.lstrip s.
Proof.
  induction s as [| c s (w & Hw)]; [now exists "" |].
  cbn [Py.lstrip]. destruct (Py.isspace c).
  - exists (String c w). now rewrite append_cons, <- Hw.
  - now exists "".
Qed.

Lemma rstrip_is_prefix (s : string) : exists w, s = Py.rstrip s ++ w.
Proof.
  induction s as [| c s (w & Hw)]; [now exists "" |].
  rewrite rstrip_cons. destruct (Py.rstrip s) as [| x r] eqn:E.
  - destruct (Py.isspace c).
    + exists (String c s). reflexivity.
    + exists s. reflexivity.
  - exists w. now rewrite append_cons, <- Hw.
Qed.

Lemma strip_is_part (s : string) : exists u w, s = u ++ Py.strip s ++ w.
Proof.
  unfold Py.strip. destruct (lstrip_is_suffix s) as (u & Hu).
  destruct (rstrip_is_prefix (Py.lstrip s)) as (w & Hw).
  exists u, w. now rewrite <- Hw.
Qed.

Lemma prefix_append_more (p s w : string) :
  String.prefix p s = true -> String.prefix p (s ++ w) = true.
Proof.
  revert s. induction p as [| c p IH]; intros s H; [now destruct (s ++ w) |].
  destruct s as [| x s]; [discriminate H |].
  rewrite append_cons. cbn [String.prefix] in *.
  destruct (ascii_dec c x); [now apply IH | discriminate H].
Qed.

Lemma contains_in_part (p u s w : string) :
  Py.contains p s = true -> Py.contains p (u ++ s ++ w) = true.
Proof.
  intros H. induction u as [| c u IH].
  - change ("" ++ s ++ w) with (s ++ w).
    clear - H. induction s as [| x s IH].
    + destruct p; [| discriminate H].
      change ("" ++ w) with w. now destruct w.
    + rewrite append_cons. cbn [Py.contains] in *.
      apply orb_true_iff in H. destruct H as [H | H].
      * pose proof (prefix_append_more p (String x s) w H) as Hp.
        rewrite append_cons in Hp. now rewrite Hp.
      * rewrite (IH H). apply orb_true_r.
  - rewrite append_cons. cbn [Py.contains]. rewrite IH. apply orb_true_r.
Qed.

Lemma contains_stripped (p s : string) :
  Py.contains p (Py.strip s) = true -> Py.contains p s = true.
Proof.
  intros H. destruct (strip_is_part s) as (u & w & Hs).
  rewrite Hs. now apply contains_in_part.
Qed.

Lemma has_char_stripped (c : ascii) (s : string) :
  Py.has_char c s = false -> Py.has_char c (Py.strip s) = false.
Proof.
  intros H. destruct (strip_is_part s) as (u & w & Hs).
  rewrite Hs, !has_char_append in H.
  apply orb_false_elim in H. destruct H as [_ H].
  now apply orb_false_elim in H.
Qed.

Lemma split_fields_without_sep (sep : ascii) (s f : string) :
  In f (Py.split sep s) -> Py.has_char sep f = false.
Proof.
  revert f. induction s as [| c s IH]; intros f Hf.
  - cbn in Hf. destruct Hf as [<- | []]. reflexivity.
  - cbn [Py.split] in Hf. destruct (Ascii.eqb c sep) eqn:Hc.
    + destruct Hf as [<- | Hf]; [reflexivity | now apply IH].
    + destruct (Py.split sep s) as [| g gs] eqn:Hs;
        [now elim (split_not_empty sep s) |].
      destruct Hf as [<- | Hf].
      * rewrite has_char_cons, Ascii.eqb_sym, Hc. apply IH. now left.
      * apply IH. now right.
Qed.

(** ** Names read from [git] *)

(** X14.  Whatever [git branch --merged main] prints, every candidate of
    the cleanup is a name that is not empty, is stripped, lies on one line,
    does not start with a star and does not contain [main]; in particular
    the main line is never a candidate. *)
Theorem cleanup_candidates_are_safe (stdout b : string) :
  In b (merged_branches_of stdout) ->
  b <> "" /\ b <> "main"
  /\ Py.startswith "*" b = false
  /\ Py.contains "main" b = false
  /\ Py.strip b = b
  /\ Py.has_char Py.LF b = false.
Proof.
  unfold merged_branches_of. intros Hb.
  apply in_map_iff in Hb. destruct Hb as (line & <- & Hline).
  apply filter_In in Hline. destruct Hline as [Hin Hk].
  apply andb_prop in Hk. destruct Hk as [Hk Hmain].
  apply andb_prop in Hk. destruct Hk as [Hne Hstar].
  apply negb_true_iff in Hmain, Hstar.
  assert (Hc : Py.contains "main" (Py.strip line) = false).
  { destruct (Py.contains "main" (Py.strip line)) eqn:E; [| reflexivity].
    apply contains_stripped in E. rewrite E in Hmain. discriminate Hmain. }
  repeat split.
  - intros E. rewrite E in Hne. discriminate Hne.
  - intros E. rewrite E in Hc. discriminate Hc.
  - exact Hstar.
  - exact Hc.
  - apply strip_idempotent.
  - apply has_char_stripped. now apply (split_fields_without_sep Py.LF stdout).
Qed.

Lemma cleanup_candidates_are_safe_witness :
  "feature/login" <> "" /\ "feature/login" <> "main"
  /\ Py.startswith "*" "feature/login" = false
  /\ Py.contains "main" "feature/login" = false
  /\ Py.strip "feature/login" = "feature/login"
  /\ Py.has_char Py.LF "feature/login" = false.
Proof.
  apply (cleanup_candidates_are_safe (branch_listing with_maintenance)).
  left. reflexivity.
Defined.

Lemma strip_name_line (name : string) :
  branch_name_ok name = true -> Py.strip (name ++ Py.nl) = name.
Proof.
  intros Hn. unfold branch_name_ok in Hn.
  repeat (apply andb_prop in Hn; destruct Hn as [Hn ?]).
  match goal with H : (Py.strip name =? name) = true |- _ =>
    apply String.eqb_eq in H; rename H into Hs end.
  assert (Hclean : starts_clean name).
  { rewrite <- Hs. apply rstrip_starts_clean, lstrip_starts_clean. }
  assert (Hr : Py.rstrip name = name).
  { unfold Py.strip in Hs. now rewrite (lstrip_of_clean name Hclean) in Hs. }
  unfold Py.strip. rewrite lstrip_of_clean.
  - now rewrite rstrip_append_dropped.
  - destruct name as [| c n]; [discriminate Hn | exact Hclean].
Qed.

(** X15.  When the query of the current branch succeeds, the branch is the
    output without the white space around it: what [git] prints for a
    branch, the name and a line feed, is read back as the name, and in no
    case has the result white space at either end. *)
Theorem current_branch_is_stripped_output
    (env : Env) (t : trace) (out err : string) :
  run_git env t rev_parse_head = Completed 0 out err ->
  exists b,
    _get_current_branch env t = (Return b, (t ++ [Git rev_parse_head])%list)
    /\ Py.strip b = b
    /\ (forall name, branch_name_ok name = true -> out = name ++ Py.nl -> b = name).
Proof.
  intros Hq. exists (Py.strip out).
  unfold _get_current_branch, subprocess_run_git. monad_unfold.
  unfold rev_parse_head in *. rewrite Hq. cbn [Z.eqb].
  split; [reflexivity |]. split; [apply strip_idempotent |].
  intros name Hn ->. now apply strip_name_line.
Qed.

Lemma current_branch_is_stripped_output_witness :
  _get_current_branch on_feature_login []
  = (Return "feature/login", [Git rev_parse_head]).
Proof.
  destruct (current_branch_is_stripped_output on_feature_login []
              ("feature/login" ++ Py.nl) "" eq_refl) as (b & Hb & _ & Hname).
  rewrite Hb. now rewrite (Hname "feature/login" eq_refl eq_refl).
Defined.

(** ** The pull request *)

Lemma pull_request_description_parts (title : string) :
  pull_request_description title = description_head ++ title ++ description_tail.
Proof.
  unfold pull_request_description, Py.strip.
  set (tail := description_tail).
  assert (Htail : Py.rstrip (description_tail ++ Py.nl ++ "                ")
                  = description_tail) by (vm_compute; reflexivity).
  match goal with
  | |- Py.rstrip (Py.lstrip ?s) = _ =>
      change s with (String Py.LF (description_head
                                   ++ title ++ description_tail ++ Py.nl
                                   ++ "                "))
  end.
  cbn [Py.lstrip]. change (Py.isspace Py.LF) with true. cbv iota.
  unfold description_head at 1.
  change (("## Description" ++ Py.nl)
          ++ title ++ description_tail ++ Py.nl ++ "                ")
    with (String "#" (("# Description" ++ Py.nl)
          ++ title ++ description_tail ++ Py.nl ++ "                ")).
  cbn [Py.lstrip]. change (Py.isspace "#") with false. cbv iota.
  change (String "#" (("# Description" ++ Py.nl)
          ++ title ++ description_tail ++ Py.nl ++ "                "))
    with (description_head ++ title ++ description_tail ++ Py.nl ++ "                ").
  assert (Hne : Py.rstrip (description_tail ++ Py.nl ++ "                ") <> "")
    by (rewrite Htail; discriminate).
  rewrite rstrip_append_kept.
  - rewrite rstrip_append_kept by exact Hne. now rewrite Htail.
  - rewrite rstrip_append_kept by exact Hne. rewrite Htail.
    destruct title; discriminate.
Qed.


(** ** Counting the commits that were not pushed *)

Lemma commit_line_parts (c : string) :
  commit_line_ok c = true ->
  c <> "" /\ starts_clean c /\ Py.rstrip c = c /\ Py.has_char Py.LF c = false.
Proof.
  unfold commit_line_ok. intros H.
  apply andb_prop in H. destruct H as [H Hlf].
  apply andb_prop in H. destruct H as [Hne Hs].
  apply String.eqb_eq in Hs. apply negb_true_iff in Hlf.
  assert (Hclean : starts_clean c).
  { rewrite <- Hs. apply rstrip_starts_clean, lstrip_starts_clean. }
  repeat split; trivial.
  - intros ->. discriminate Hne.
  - unfold Py.strip in Hs. now rewrite (lstrip_of_clean c Hclean) in Hs.
Qed.

Lemma rstrip_oneline_log (c : string) (cs : list string) :
  Forall (fun c => commit_line_ok c = true) (c :: cs) ->
  Py.rstrip (oneline_log (c :: cs)) = String.concat Py.nl (c :: cs).
Proof.
  revert c. induction cs as [| c' cs IH]; intros c Hall.
  - inversion Hall as [| ? ? Hc _]; subst.
    destruct (commit_line_parts c Hc) as (_ & _ & Hr & _).
    cbn [oneline_log String.concat].
    rewrite rstrip_append_dropped by reflexivity. exact Hr.
  - inversion Hall as [| ? ? Hc Hrest]; subst.
    specialize (IH c' Hrest).
    assert (Hne : Py.rstrip (oneline_log (c' :: cs)) <> "").
    { rewrite IH. inversion Hrest as [| ? ? Hc' _]; subst.
      destruct (commit_line_parts c' Hc') as (Hne' & _).
      cbn [String.concat]. destruct cs; [exact Hne' |].
      destruct c'; [now elim Hne' | discriminate]. }
    change (oneline_log (c :: c' :: cs))
      with (c ++ Py.nl ++ oneline_log (c' :: cs)).
    rewrite rstrip_append_kept.
    + rewrite rstrip_append_kept by exact Hne. now rewrite IH.
    + rewrite rstrip_append_kept by exact Hne. discriminate.
Qed.

Lemma strip_oneline_log (c : string) (cs : list string) :
  Forall (fun c => commit_line_ok c = true) (c :: cs) ->
  Py.strip (oneline_log (c :: cs)) = String.concat Py.nl (c :: cs).
Proof.
  intros Hall. unfold Py.strip. rewrite lstrip_of_clean.
  - now apply rstrip_oneline_log.
  - inversion Hall as [| ? ? Hc _]; subst.
    destruct (commit_line_parts c Hc) as (Hne & Hclean & _).
    cbn [oneline_log]. destruct c; [now elim Hne | exact Hclean].
Qed.

Lemma split_joined_lines (c : string) (cs : list string) :
  Forall (fun c => commit_line_ok c = true) (c :: cs) ->
  Py.split Py.LF (String.concat Py.nl (c :: cs)) = c :: cs.
Proof.
  revert c. induction cs as [| c' cs IH]; intros c Hall;
    inversion Hall as [| ? ? Hc Hrest]; subst;
    destruct (commit_line_parts c Hc) as (_ & _ & _ & Hlf).
  - now apply split_without_sep.
  - change (String.concat Py.nl (c :: c' :: cs))
      with (c ++ String Py.LF (String.concat Py.nl (c' :: cs))).
    rewrite split_at_sep by exact Hlf. now rewrite IH.
Qed.

Lemma in_dict_set {V} (k : string) (v : V) (d : list (string * V)) :
  In (k, v) (dict_set k v d).
Proof.
  induction d as [| [k' v'] d IH]; cbn [dict_set]; [now left |].
  destruct (String.eqb k' k); [now left | now right].
Qed.

(** X17.  When the log of the commits ahead of [origin/main] succeeds, the
    metric [unpushed_commits] is the number of lines of the log.  With no
    line the status and the issues are left as they were; with [n] lines,
    [n] at least one, the status becomes [warning] and the issue
    [<n> unpushed commits on current branch] is added. *)
Theorem unpushed_commits_are_counted
    (env : Env) (report : health_report) (t : trace)
    (commits : list string) (err : string) :
  Forall (fun c => commit_line_ok c = true) commits ->
  run_git env t log_unpushed = Completed 0 (oneline_log commits) err ->
  exists r,
    check_unpushed env report t = (Return r, (t ++ [Git log_unpushed])%list)
    /\ In ("unpushed_commits", IntMetric (Z.of_nat (length commits))) (metrics r)
    /\ (commits = [] -> status r = status report /\ issues r = issues report)
    /\ (commits <> [] ->
        status r = "warning"
        /\ issues r
           = (issues report
              ++ [(Py.str_of_nat (length commits)
                   ++ " unpushed commits on current branch")%string])%list).
Proof.
  intros Hall Hq.
  unfold check_unpushed.
  destruct (run_git_command_cases env log_unpushed t)
    as [(out' & err' & Hq' & Hrun) | [(rc & out' & err' & Hrc & Hq' & _) | (msg & Hq' & _)]];
    rewrite Hq in Hq'; inversion Hq'; subst out' err'; [| now elim Hrc].
  unfold log_unpushed in Hrun. monad_unfold. rewrite Hrun. cbv beta iota.
  destruct commits as [| c cs].
  - change (Py.strip (oneline_log [])) with "". cbn [truthy String.eqb negb Nat.ltb Nat.leb].
    eexists. split; [reflexivity |]. cbn [metrics set_metric length].
    split; [apply in_dict_set |].
    split; [intros _; split; reflexivity | intros H; now elim H].
  - rewrite (strip_oneline_log c cs Hall), (split_joined_lines c cs Hall).
    assert (Ht : truthy (String.concat Py.nl (c :: cs)) = true).
    { inversion Hall as [| ? ? Hc _]; subst.
      destruct (commit_line_parts c Hc) as (Hne & _).
      cbn [String.concat]. destruct c; [now elim Hne |]. now destruct cs. }
    rewrite Ht. cbn [length Nat.ltb Nat.leb].
    eexists. split; [reflexivity |].
    cbn [metrics issues status set_metric add_issue set_status].
    split; [apply in_dict_set |].
    split; [discriminate | intros _; split; reflexivity].
Qed.

(** Two commits that were not pushed. *)
Lemma unpushed_commits_are_counted_witness :
  exists r,
    check_unpushed two_unpushed empty_report [] = (Return r, [Git log_unpushed])
    /\ In ("unpushed_commits", IntMetric 2) (metrics r)
    /\ status r = "warning"
    /\ issues r = ["2 unpushed commits on current branch"].
Proof.
  destruct (unpushed_commits_are_counted two_unpushed empty_report []
              ["1a2b3c4 Add login form"; "5d6e7f8 Fix typo"] "")
    as (r & Hr & Hm & _ & Hw).
  - repeat constructor.
  - reflexivity.
  - exists r. destruct (Hw ltac:(discriminate)) as [Hs Hi].
    repeat split; [exact Hr | exact Hm | exact Hs | exact Hi].
Defined.

(** ** A pull that fails during a sync *)

(** X18.  When the fetch and the look-up of [origin/<branch>] succeed, the
    sync pulls.  If the pull succeeds these three are all its commands and
    it returns after saying the branch is synced.  If the pull fails, the
    failure does not end the sync: the handler meant for a missing remote
    branch runs, so the script says that the remote branch does not exist,
    although it has just found it, and goes on to
    [push -u origin <branch>]. *)
Theorem sync_pushes_after_failed_pull
    (env : Env) (self : automator) (branch : option string) (t : trace) :
  let b := sync_branch self branch in
  let fetch := ["fetch"; "origin"] in
  let lookup := ["rev-parse"; "origin/" ++ b] in
  let pull := ["pull"; "origin"; b] in
  let push := ["push"; "-u"; "origin"; b] in
  let t1 := (t ++ [Print ("🔄 Syncing " ++ b ++ " with remote...")])%list in
  let t2 := (t1 ++ [Git fetch])%list in
  let t3 := (t2 ++ [Git lookup])%list in
  git_ok env t1 fetch = true ->
  git_ok env t2 lookup = true ->
  exists d,
    snd (sync_with_remote env self branch t) = (t ++ d)%list
    /\ (git_ok env t3 pull = true ->
        fst (sync_with_remote env self branch t) = Return tt
        /\ git_commands d = [fetch; lookup; pull]
        /\ In (Print ("✅ " ++ b ++ " synced with remote")) d)
    /\ (git_ok env t3 pull = false ->
        git_commands d = [fetch; lookup; pull; push]
        /\ In (Print ("⚠️  Remote branch origin/" ++ b ++ " doesn't exist")) d).
Proof.
  intros b fetch lookup pull push t1 t2 t3.
  unfold sync_with_remote.
  assert (Hb : (if truthy_opt branch
                then match branch with Some b0 => b0 | None => "" end
                else current_branch self) = b).
  { unfold b, sync_branch, truthy_opt. destruct branch as [b0 |]; [| reflexivity].
    now destruct (truthy b0). }
  rewrite Hb. clear Hb. clearbody b.
  monad_unfold.
  step_git.
  1: step_git; [step_git |..]; cbn [anything]; try step_git.
  all: subst t3 t2 t1 fetch lookup pull push; use_git_ok;
    intros Hfetch Hlookup; try discriminate Hfetch; try discriminate Hlookup.
  all: trace_norm; eexists; (split; [reflexivity |]);
    cbn [git_commands flat_map app fst]; split; intros Hpull;
    try discriminate Hpull.
  all: repeat split; cbn [In]; tauto.
Qed.

(** The sync of [main]: with a remote that answers every command, and with
    a pull that stops on a conflict. *)
Lemma sync_pushes_after_failed_pull_witness :
  (fst (sync_with_remote quiet on_main None []) = Return tt
   /\ git_commands (snd (sync_with_remote quiet on_main None []))
      = [ ["fetch"; "origin"]; ["rev-parse"; "origin/main"];
          ["pull"; "origin"; "main"] ])
  /\ git_commands (snd (sync_with_remote pull_conflict on_main None []))
     = [ ["fetch"; "origin"]; ["rev-parse"; "origin/main"];
         ["pull"; "origin"; "main"]; ["push"; "-u"; "origin"; "main"] ]
  /\ In (Print "⚠️  Remote branch origin/main doesn't exist")
       (snd (sync_with_remote pull_conflict on_main None [])).
Proof.
  split.
  - destruct (sync_pushes_after_failed_pull quiet on_main None [] eq_refl eq_refl)
      as (d & Hd & Hok & _).
    rewrite Hd. cbn [app]. destruct (Hok eq_refl) as (Hr & Hc & _).
    split; [exact Hr | exact Hc].
  - destruct (sync_pushes_after_failed_pull pull_conflict on_main None []
                eq_refl eq_refl)
      as (d & Hd & _ & Hfail).
    rewrite Hd. cbn [app]. exact (Hfail eq_refl).
Defined.

(** ** A listing that fails *)

(** X19.  When the listing of the merged branches fails, the cleanup ends
    there, dry run or not: the listing is its only [git] command, so that
    nothing is deleted, and it raises; if [git] ran and gave a return code
    other than zero, what it raises is [SystemExit(1)], after the error
    lines. *)
Theorem cleanup_stops_when_listing_fails (env : Env) (dry_run : bool) (t : trace) :
  git_ok env (t ++ [Print cleaning])%list list_merged = false ->
  exists e d,
    clean_merged_branches env dry_run t = (Raise e, (t ++ d)%list)
    /\ git_commands d = [list_merged]
    /\ (forall rc out err,
           run_git env (t ++ [Print cleaning])%list list_merged = Completed rc out err ->
           e = SystemExit 1 /\ error_printed d = true).
Proof.
  unfold clean_merged_branches, cleaning, list_merged. monad_unfold.
  destruct (run_git_command_cases env ["branch"; "--merged"; "main"]
              (t ++ [Print "🧹 Cleaning up merged branches..."])%list)
    as [(out & err & Hq & ->) | [(rc & out & err & Hrc & Hq & ->) | (msg & Hq & ->)]];
    unfold git_ok; rewrite Hq; intros Hok.
  - discriminate Hok.
  - trace_norm. eexists. eexists. split; [reflexivity |].
    split; [reflexivity |]. intros rc' out' err' _. split; reflexivity.
  - trace_norm. eexists. eexists. split; [reflexivity |].
    split; [reflexivity |]. intros rc' out' err' H. discriminate H.
Qed.

Lemma cleanup_stops_when_listing_fails_witness :
  exists d,
    clean_merged_branches no_main_branch false [] = (Raise (SystemExit 1), d)
    /\ git_commands d = [list_merged].
Proof.
  destruct (cleanup_stops_when_listing_fails no_main_branch false [] eq_refl)
    as (e & d & Hd & Hc & He).
  destruct (He 1%Z "" "fatal: malformed object name main" eq_refl) as [-> _].
  exists d. split; [exact Hd | exact Hc].
Defined.

(** ** An automator that cannot be made *)

(** X20.  The automator is made before the [try] of [main].  For every
    command, when the client cannot be made the script ends with exit
    status 1 and a traceback, having run no [git] command and printed
    nothing; and when the client is made but [git] cannot be run for the
    query of the current branch, it ends the same way after that one
    query. *)
Theorem automator_failure_is_a_traceback (env : Env) (a : args) (t : trace) :
  cmd_of a <> NoCommand ->
  (forall msg,
      boto3_client env t "codecommit" = Some msg ->
      script env a t
      = (1%Z, (t ++ [Boto3Client "codecommit"; Traceback (Failure msg)])%list))
  /\ (forall msg,
         boto3_client env t "codecommit" = None ->
         run_git env (t ++ [Boto3Client "codecommit"])%list rev_parse_head = NotRun msg ->
         script env a t
         = (1%Z, (t ++ [Boto3Client "codecommit"; Git rev_parse_head;
                        Traceback (Failure msg)])%list)).
Proof.
  intros Hcmd.
  assert (Hmain : main env a
                  = (automator <- GitWorkflowAutomator env (repository a);;
                     try_except (dispatch env automator (cmd_of a)) is_Exception
                       (fun e => print ("❌ Error: " ++ str_of_exn e);; sys_exit 1))%py).
  { unfold main. destruct (cmd_of a); try reflexivity. now elim Hcmd. }
  split; intros msg Hc.
  - unfold script. rewrite Hmain.
    unfold GitWorkflowAutomator. monad_unfold. rewrite Hc.
    now trace_norm.
  - intros Hq. unfold script. rewrite Hmain.
    unfold GitWorkflowAutomator, _get_current_branch, subprocess_run_git.
    monad_unfold. rewrite Hc. unfold rev_parse_head in Hq. rewrite Hq.
    cbn [is_CalledProcessError]. now trace_norm.
Qed.

Lemma automator_failure_is_a_traceback_witness :
  script no_region sync_current []
  = (1%Z, [Boto3Client "codecommit"; Traceback (Failure "You must specify a region.")]).
Proof.
  destruct (automator_failure_is_a_traceback no_region sync_current []
              ltac:(discriminate)) as [H _].
  exact (H "You must specify a region." eq_refl).
Defined.
